(** * Care-Gpt: the browser client [static/js/app.js]

    A shallow embedding of the client script: the transport client [API], the
    formatters, the result and dashboard renderers and the handlers that
    [initSymptomsPage] and [loadDashboardSummary] install, followed by the
    properties of the specification that were checked against them.

    Conventions of the embedding.
    - A JavaScript string is the list of its UTF-16 code units ([jsstring]);
      [length] and [substring] of the script count code units, so [length] and
      [take] on the list are the same operations.
    - A JavaScript number is an IEEE 754 binary64 value: Rocq's primitive
      [float], whose arithmetic is the one of the script.
    - A property of a parsed JSON object is a [field]: missing, [null] or a
      value of the type the service documents for it.
    - The document is a finite map from element ids to elements; handlers are
      computations in a state monad whose completion is normal or a thrown
      error, the state being kept when an error is thrown.
    - A promise is identified with the completion it settles to; the part of a
      handler that runs before the network call and the part that runs on
      settlement are separate computations. *)

From Stdlib Require Import ZArith NArith Floats Ascii String List Lia.
From stdpp Require Import gmap strings list.

Local Open Scope Z_scope.
#[local] Set Warnings "-inexact-float".

(** * Strings *)

Abbreviation jsstring := (list N).

Definition dquote : N := 34.
Definition ellipsis : N := 8230.  (* U+2026, the truncation marker *)
Definition em_dash : N := 8212.   (* U+2014 *)

(** [lit] turns an ASCII literal into code units.  The literals of the script
    are single-quoted and contain double quotes; here the apostrophe stands
    for the double quote, so that the templates read as in the script. *)
Fixpoint lit (s : string) : jsstring :=
  match s with
  | EmptyString => []
  | String c r =>
      (if Ascii.eqb c "'"%char then dquote else N_of_ascii c) :: lit r
  end.

(** [Array.prototype.join] on an array of strings. *)
Fixpoint join (sep : jsstring) (l : list jsstring) : jsstring :=
  match l with
  | [] => []
  | [x] => x
  | x :: r => x ++ sep ++ join sep r
  end.

(** ** Serialization of a text node

    [element.innerHTML] of an element whose only child is a text node is the
    text with the HTML fragment serialization's escaping applied (not in
    attribute mode): ampersand, no-break space, less-than, greater-than. *)
Definition escape_unit (c : N) : jsstring :=
  if (c =? 38)%N then lit "&amp;"
  else if (c =? 160)%N then lit "&nbsp;"
  else if (c =? 60)%N then lit "&lt;"
  else if (c =? 62)%N then lit "&gt;"
  else [c].

Definition escape_text (s : jsstring) : jsstring :=
  concat (map escape_unit s).

(** ** [String.prototype.trim]: white space and line terminators *)
Definition is_space (c : N) : bool :=
  ((9 <=? c) && (c <=? 13) || (c =? 32) || (c =? 160) || (c =? 5760)
   || (8192 <=? c) && (c <=? 8202) || (c =? 8232) || (c =? 8233)
   || (c =? 8239) || (c =? 8287) || (c =? 12288) || (c =? 65279))%N.

Fixpoint trim_start (s : jsstring) : jsstring :=
  match s with
  | c :: r => if is_space c then trim_start r else s
  | [] => []
  end.

Definition trim (s : jsstring) : jsstring :=
  rev (trim_start (rev (trim_start s))).

(** [s.split(/[,;]/)]: cut at every comma and semicolon. *)
Fixpoint split_on (sep : N -> bool) (cur : jsstring) (s : jsstring)
  : list jsstring :=
  match s with
  | [] => [rev cur]
  | c :: r => if sep c then rev cur :: split_on sep [] r
              else split_on sep (c :: cur) r
  end.

Definition is_comma_or_semicolon (c : N) : bool := ((c =? 44) || (c =? 59))%N.

Definition split_conditions (s : jsstring) : list jsstring :=
  split_on is_comma_or_semicolon [] s.

(** * Numbers *)

Module Number.

(** Decimal digits of a non-negative integer. *)
Fixpoint digits_fuel (fuel : nat) (n : Z) (acc : jsstring) : jsstring :=
  match fuel with
  | O => acc
  | S f =>
      let acc' := Z.to_N (48 + n mod 10) :: acc in
      if n <? 10 then acc' else digits_fuel f (n / 10) acc'
  end.

Definition decimal (n : Z) : jsstring :=
  digits_fuel (S (Z.to_nat (Z.log2 n))) n [].

Definition pow_pos_part (b e : Z) : Z := b ^ (Z.max e 0).

(** Compare [s * 10^b] with [l * 2^a], for any integers [a] and [b]. *)
Definition cmp_dec_bin (s b l a : Z) : comparison :=
  (s * pow_pos_part 10 b * pow_pos_part 2 (- a))
  ?= (l * pow_pos_part 2 a * pow_pos_part 10 (- b)).

(** The decimals that round to the float [m * 2^e] (round to nearest, ties
    to even) are those between the midpoints to its two neighbours, the
    midpoints included when [m] is even.  In quarters of the unit [2^e]: *)
Definition lo4 (m e : Z) : Z :=
  if (m =? 2 ^ 52) && (-1074 <? e) then 4 * m - 1 else 4 * m - 2.
Definition hi4 (m : Z) : Z := 4 * m + 2.

Definition rounds_to (m e s b : Z) : bool :=
  let closed := Z.even m in
  match cmp_dec_bin s b (lo4 m e) (e - 2) with
  | Gt => true | Eq => closed | Lt => false
  end &&
  match cmp_dec_bin s b (hi4 m) (e - 2) with
  | Lt => true | Eq => closed | Gt => false
  end.

(** The least [n] with [m * 2^e < 10^n]. *)
Fixpoint magnitude_fuel (fuel : nat) (m e n : Z) : Z :=
  match fuel with
  | O => n
  | S f =>
      match cmp_dec_bin 1 n m e with
      | Gt => n
      | _ => magnitude_fuel f m e (n + 1)
      end
  end.

(** The search starts below the answer: [2^l <= m * 2^e] for
    [l = log2 m + e], and [30103 / 100000] exceeds [log10 2] by less than
    [1 / 10^8]. *)
Definition magnitude (m e : Z) : Z :=
  magnitude_fuel 640 m e ((Z.log2 m + e) * 30103 / 100000 - 2).

(** The two multiples of [10^b] around [m * 2^e], the nearer one first
    (the even one on a tie). *)
Definition around (m e b : Z) : Z * Z :=
  let num := m * pow_pos_part 2 e * pow_pos_part 10 (- b) in
  let den := pow_pos_part 2 (- e) * pow_pos_part 10 b in
  let s0 := num / den in
  let s1 := s0 + 1 in
  match 2 * num ?= (s0 + s1) * den with
  | Lt => (s0, s1)
  | Gt => (s1, s0)
  | Eq => if Z.even s0 then (s0, s1) else (s1, s0)
  end.

(** The shortest decimal [s * 10^b] that rounds to [m * 2^e], looking for
    [k] digits, then [k + 1], up to 17, which always suffice. *)
Fixpoint shortest_fuel (fuel : nat) (m e nv k : Z) : Z * Z :=
  let b := nv - k in
  let '(near, far) := around m e b in
  match fuel with
  | O => (near, b)
  | S f =>
      if rounds_to m e near b then (near, b)
      else if rounds_to m e far b then (far, b)
      else shortest_fuel f m e nv (k + 1)
  end.

Fixpoint strip_zeros (fuel : nat) (s b : Z) : Z * Z :=
  match fuel with
  | O => (s, b)
  | S f => if (s mod 10 =? 0) && (0 <? s) then strip_zeros f (s / 10) (b + 1)
           else (s, b)
  end.

Definition sign_and_decimal (n : Z) : jsstring :=
  (if n <? 0 then lit "-" else lit "+") ++ decimal (Z.abs n).

(** The layout of [Number::toString] for the digits [ds] of [s] and the
    exponent [n] such that the value is [0.ds * 10^n]. *)
Definition layout (ds : jsstring) (n : Z) : jsstring :=
  let k := Z.of_nat (length ds) in
  if (k <=? n) && (n <=? 21) then
    ds ++ replicate (Z.to_nat (n - k)) 48%N
  else if (0 <? n) && (n <=? 21) then
    take (Z.to_nat n) ds ++ lit "." ++ drop (Z.to_nat n) ds
  else if (-6 <? n) && (n <=? 0) then
    lit "0." ++ replicate (Z.to_nat (- n)) 48%N ++ ds
  else if k =? 1 then
    ds ++ lit "e" ++ sign_and_decimal (n - 1)
  else
    take 1 ds ++ lit "." ++ drop 1 ds ++ lit "e" ++ sign_and_decimal (n - 1).

Definition finite_toString (m e : Z) : jsstring :=
  let nv := magnitude m e in
  let '(s, b) := shortest_fuel 16 m e nv 1 in
  let '(s', b') := strip_zeros 400 s b in
  let ds := decimal s' in
  layout ds (b' + Z.of_nat (length ds)).

(** [Number::toString(x)], radix 10: what [ToString] gives for a number
    that is concatenated to a string or stored in a string property. *)
Definition toString (x : float) : jsstring :=
  match Prim2SF x with
  | S754_nan => lit "NaN"
  | S754_zero _ => lit "0"
  | S754_infinity s => (if s then lit "-" else []) ++ lit "Infinity"
  | S754_finite s m e =>
      (if s then lit "-" else []) ++ finite_toString (Z.pos m) e
  end.

(** [ToBoolean] of a number: false for zero (of either sign) and NaN. *)
Definition truthy (x : float) : bool :=
  match Prim2SF x with
  | S754_nan | S754_zero _ => false
  | _ => true
  end.

(** The integer [floor (v + 1/2)] for [v = (-1)^s * m * 2^e] with [e < 0]. *)
Definition round_half_up (s : bool) (m : positive) (e : Z) : Z :=
  let d := 2 ^ (- e) in
  (2 * (if s then Z.neg m else Z.pos m) + d) / (2 * d).

Definition of_Z (n : Z) : float :=
  SF2Prim (binary_normalize prec emax n 0 false).

(** [Math.round]: the integer nearest to [x], the larger one on a tie;
    [-0] for [x] in [[-0.5, 0)]; NaN, infinities and zeros unchanged. *)
Definition round (x : float) : float :=
  match Prim2SF x with
  | S754_finite s m e =>
      if 0 <=? e then x
      else
        let q := round_half_up s m e in
        if q =? 0 then (if s then (- 0)%float else 0%float) else of_Z q
  | _ => x
  end.

End Number.

(** * Properties of parsed JSON objects *)

Inductive field (A : Type) : Type :=
| absent            (* the property is missing: [undefined] *)
| null
| present (a : A).
Arguments absent {A}.
Arguments null {A}.
Arguments present {A} a.

(** [v == null], true of [null] and [undefined] alike. *)
Definition is_nullish {A} (v : field A) : bool :=
  match v with present _ => false | _ => true end.

(** [ToBoolean]: the empty string, zero and NaN are false like [null] and
    [undefined]; every object and every array is true. *)
Definition truthy_string (v : field jsstring) : bool :=
  match v with present (_ :: _) => true | _ => false end.

Definition truthy_number (v : field float) : bool :=
  match v with present x => Number.truthy x | _ => false end.

Definition truthy_object {A} (v : field A) : bool :=
  match v with present _ => true | _ => false end.

(** [v || d] at each of the three kinds of value. *)
Definition str_or (v : field jsstring) (d : jsstring) : jsstring :=
  match v with present (c :: s) => c :: s | _ => d end.

Definition num_or (v : field float) (d : float) : float :=
  match v with present x => if Number.truthy x then x else d | _ => d end.

Definition obj_or {A} (v : field A) (d : A) : A :=
  match v with present a => a | _ => d end.

(** [ToString] of a string-valued property, as string concatenation applies
    it. *)
Definition to_string (v : field jsstring) : jsstring :=
  match v with
  | absent => lit "undefined"
  | null => lit "null"
  | present s => s
  end.

(** [v === s] for a string literal [s]. *)
Definition strict_eq (v : field jsstring) (s : jsstring) : bool :=
  match v with present t => bool_decide (t = s) | _ => false end.

(** * Data model *)

Record ExplainFactor := {
  factor : field jsstring;
  impact : field jsstring;
  description : field jsstring;
}.

Module TriageResult.
Record t := {
  risk_level : field jsstring;
  confidence_score : field float;
  recommended_department : field jsstring;
  alternative_departments : field (list jsstring);
  summary : field jsstring;
  contributing_factors : field (list ExplainFactor);
  error : field jsstring;
}.
End TriageResult.

Module Patient.
Record t := {
  age : field float;
  gender : field jsstring;
  symptoms : field jsstring;
  blood_pressure_systolic : field float;
  blood_pressure_diastolic : field float;
  heart_rate : field float;
  temperature : field float;
  pre_existing_conditions : field (list jsstring);
  raw_extraction : field jsstring;
  raw : field jsstring;
}.
End Patient.

Module UploadResult.
Record t := {
  patient : field Patient.t;
  error : field jsstring;
}.
End UploadResult.

Module RiskCounts.
Record t := {
  Low : field float;
  Medium : field float;
  High : field float;
}.
Definition empty : t := {| Low := absent; Medium := absent; High := absent |}.
End RiskCounts.

Module PatientInput.
(** What a recent entry carries of the submitted input. *)
Record t := { symptoms : field jsstring }.
End PatientInput.

Module Recent.
Record t := {
  risk_level : field jsstring;
  patient_input : field PatientInput.t;
  recommended_department : field jsstring;
  confidence_score : field float;
}.
End Recent.

Module DashboardSummary.
(** [by_department] lists the keys of the object in the order of
    [Object.keys], each with its count. *)
Record t := {
  by_risk_level : field RiskCounts.t;
  by_department : field (list (jsstring * float));
  total_triages : field float;
  recent : field (list Recent.t);
}.
End DashboardSummary.

(** The body of a triage request. *)
Module Payload.
Record t := {
  age : float;
  gender : jsstring;
  symptoms : jsstring;
  blood_pressure : field jsstring;
  heart_rate : field float;
  temperature : field float;
  pre_existing_conditions : list jsstring;
}.
End Payload.

(** * Elements *)

Record file := { file_name : jsstring }.

(** [innerHTML] holds the markup last assigned to the element; assigning
    [textContent] leaves one text node, whose markup is the escaped text. *)
Record element := {
  value : jsstring;
  innerHTML : jsstring;
  disabled : bool;
  classList : gset string;
  files : list file;
}.

Definition createElement : element :=
  {| value := []; innerHTML := []; disabled := false; classList := ∅;
     files := [] |}.

Definition with_value (v : jsstring) (e : element) : element :=
  {| value := v; innerHTML := innerHTML e; disabled := disabled e;
     classList := classList e; files := files e |}.

Definition with_innerHTML (h : jsstring) (e : element) : element :=
  {| value := value e; innerHTML := h; disabled := disabled e;
     classList := classList e; files := files e |}.

Definition with_textContent (s : jsstring) (e : element) : element :=
  with_innerHTML (escape_text s) e.

Definition with_disabled (b : bool) (e : element) : element :=
  {| value := value e; innerHTML := innerHTML e; disabled := b;
     classList := classList e; files := files e |}.

Definition with_classList (c : gset string) (e : element) : element :=
  {| value := value e; innerHTML := innerHTML e; disabled := disabled e;
     classList := c; files := files e |}.

(** * Formatter *)

Definition riskBadgeClass (level : field jsstring) : jsstring :=
  if strict_eq level (lit "High") then lit "badge-high"
  else if strict_eq level (lit "Medium") then lit "badge-medium"
  else lit "badge-low".

Definition riskValueClass (level : field jsstring) : jsstring :=
  if strict_eq level (lit "High") then lit "risk-high"
  else if strict_eq level (lit "Medium") then lit "risk-medium"
  else lit "risk-low".

Definition impactClass (impact : field jsstring) : jsstring :=
  if strict_eq impact (lit "high") then lit "high"
  else if strict_eq impact (lit "medium") then lit "medium"
  else lit "low".

Definition escapeHtml (s : field jsstring) : jsstring :=
  match s with
  | present t =>
      let div := createElement in
      let div := with_textContent t div in
      innerHTML div
  | _ => []
  end.

(** * Result renderer *)

Definition renderTriageResult (data : TriageResult.t) : jsstring :=
  let risk := str_or (TriageResult.risk_level data) (lit "Low") in
  let conf :=
    match TriageResult.confidence_score data with
    | present c => Number.round (c * 100)
    | _ => 0%float
    end in
  let dept :=
    str_or (TriageResult.recommended_department data)
           (lit "General Medicine") in
  let alt := obj_or (TriageResult.alternative_departments data) [] in
  let summary := str_or (TriageResult.summary data) [] in
  let riskValClass := riskValueClass (present risk) in
  let html := [] in
  let html := html ++
    lit "<div class='result-row'><span class='result-label'>Risk level</span><span class='result-value "
    ++ riskValClass ++ lit "'>" ++ escapeHtml (present risk)
    ++ lit "</span></div>" in
  let html := html ++
    lit "<div class='result-row'><span class='result-label'>Confidence</span><span class='result-value'>"
    ++ Number.toString conf ++ lit "%</span></div>" in
  let html := html ++
    lit "<div class='result-row'><span class='result-label'>Recommended department</span></div>" in
  let html := html ++
    lit "<p class='result-dept' style='margin:0 0 0.75rem 0'>"
    ++ escapeHtml (present dept) ++ lit "</p>" in
  let html :=
    match alt with
    | [] => html
    | _ :: _ => html ++
        lit "<p style='font-size:0.8125rem;color:var(--color-text-muted);margin:0 0 0.75rem 0'>Alternatives: "
        ++ join (lit ", ") (map (fun a => escapeHtml (present a)) alt)
        ++ lit "</p>"
    end in
  let html :=
    match summary with
    | [] => html
    | _ :: _ => html ++ lit "<p class='result-summary'>"
                  ++ escapeHtml (present summary) ++ lit "</p>"
    end in
  html.

Definition explain_item (f : ExplainFactor) : jsstring :=
  lit "<li class='explain-item'><span class='explain-factor'>"
  ++ escapeHtml (factor f)
  ++ lit "</span><span class='explain-impact "
  ++ impactClass (impact f) ++ lit "'>(" ++ to_string (impact f)
  ++ lit ")</span><p class='explain-desc'>" ++ escapeHtml (description f)
  ++ lit "</p></li>".

Definition renderExplainability (factors : field (list ExplainFactor))
  : jsstring :=
  match factors with
  | present (f :: fs) =>
      let html := lit "<ul class='explain-list'>" in
      let html := fold_left (fun html f => html ++ explain_item f)
                            (f :: fs) html in
      html ++ lit "</ul>"
  | _ =>
      lit "<p style='font-size:0.875rem;color:var(--color-text-muted)'>No factors returned.</p>"
  end.

(** * Dashboard renderer: the markup built in [loadDashboardSummary] *)

Definition dept_pct (count total : float) : float :=
  if Number.truthy total then Number.round ((count / total) * 100)
  else 0%float.

Definition dept_item (total : float) (entry : jsstring * float) : jsstring :=
  let '(dept, count) := entry in
  let pct := dept_pct count total in
  lit "<div class='dept-item'><div class='dept-item-name'>"
  ++ escapeHtml (present dept)
  ++ lit "</div><div class='dept-item-bar'><div class='dept-item-fill' style='width:"
  ++ Number.toString pct
  ++ lit "%'></div></div><div class='dept-item-count'>"
  ++ Number.toString count ++ lit "</div></div>".

Definition dept_bars (data : DashboardSummary.t) : jsstring :=
  let byDept := obj_or (DashboardSummary.by_department data) [] in
  let total := num_or (DashboardSummary.total_triages data) 1%float in
  match byDept with
  | [] => lit "<p class='empty-state' style='margin:0;'>No data yet.</p>"
  | _ :: _ => join [] (map (dept_item total) byDept)
  end.

(** The excerpt [sym] of an entry of the recent feed. *)
Definition recent_sym (r : Recent.t) : jsstring :=
  match Recent.patient_input r with
  | present p =>
      match PatientInput.symptoms p with
      | present (c :: s) =>
          let symptoms := c :: s in
          take 60 symptoms
          ++ (if (60 <? length symptoms)%nat then [ellipsis] else [])
      | _ => [em_dash]
      end
  | _ => [em_dash]
  end.

(** The text of the confidence cell of an entry of the recent feed. *)
Definition recent_confidence (r : Recent.t) : jsstring :=
  if truthy_number (Recent.confidence_score r) then
    match Recent.confidence_score r with
    | present c => Number.toString (Number.round (c * 100)) ++ lit "%"
    | _ => []
    end
  else [].

Definition recent_item (r : Recent.t) : jsstring :=
  let badgeClass := riskBadgeClass (Recent.risk_level r) in
  let riskBadge :=
    lit "<span class='badge " ++ badgeClass ++ lit "'>"
    ++ escapeHtml (Recent.risk_level r) ++ lit "</span>" in
  let sym := recent_sym r in
  lit "<div class='recent-item'><div><p class='recent-item-dept'>"
  ++ escapeHtml (Recent.recommended_department r)
  ++ lit "</p><p class='recent-item-symptoms'>" ++ escapeHtml (present sym)
  ++ lit "</p></div><div class='recent-item-meta'>" ++ riskBadge
  ++ lit "<span style='font-size:0.75rem;color:var(--color-text-muted)'>"
  ++ recent_confidence r ++ lit "</span></div></div>".

Definition recent_feed (rs : list Recent.t) : jsstring :=
  join [] (map recent_item rs).

(** * Completions, promises and the network *)

Inductive js_error :=
| Error (message : jsstring)
| TypeError (message : jsstring)
| SyntaxError (message : jsstring).

Definition message (e : js_error) : jsstring :=
  match e with Error m | TypeError m | SyntaxError m => m end.

Inductive completion (A : Type) : Type :=
| Normal (a : A)
| Throw (e : js_error).
Arguments Normal {A} a.
Arguments Throw {A} e.

(** A response as the script sees it: the [ok] flag and what the promise of
    [r.json()] settles to, a parsed body or the parser's error. *)
Record response (A : Type) := { ok : bool; json : completion A }.
Arguments ok {A} r.
Arguments json {A} r.

(** [p.then(f)] on settlements, [f] returning a promise or throwing. *)
Definition then_ {A B} (p : completion A) (f : A -> completion B)
  : completion B :=
  match p with
  | Normal a => f a
  | Throw e => Throw e
  end.

Inductive request_body :=
| NoBody
| JsonBody (payload : Payload.t)
| FormData (name : jsstring) (f : file).

Record request := {
  url : jsstring;
  method : jsstring;
  headers : list (jsstring * jsstring);
  body : request_body;
}.

(** * Transport client

    For every operation, the request that [fetch] is called with and the
    settlement of the returned promise as a function of the settlement [net]
    of [fetch]. *)
Module API.

Definition base : jsstring := [].

Definition triage_request (payload : Payload.t) : request :=
  {| url := base ++ lit "/api/triage"; method := lit "POST";
     headers := [(lit "Content-Type", lit "application/json")];
     body := JsonBody payload |}.

Definition triage (net : completion (response TriageResult.t))
  : completion TriageResult.t :=
  then_ net (fun r =>
    if negb (ok r) then
      then_ (json r) (fun j =>
        Throw (Error (str_or (TriageResult.error j) (lit "Triage failed"))))
    else json r).

Definition uploadDocument_request (f : file) : request :=
  {| url := base ++ lit "/api/upload-document"; method := lit "POST";
     headers := []; body := FormData (lit "document") f |}.

Definition uploadDocument (net : completion (response UploadResult.t))
  : completion UploadResult.t :=
  then_ net (fun r =>
    if negb (ok r) then
      then_ (json r) (fun j =>
        Throw (Error (str_or (UploadResult.error j) (lit "Upload failed"))))
    else json r).

Definition analyzeDocumentImage_request (f : file) : request :=
  {| url := base ++ lit "/api/analyze-document-image"; method := lit "POST";
     headers := []; body := FormData (lit "image") f |}.

Definition analyzeDocumentImage (net : completion (response UploadResult.t))
  : completion UploadResult.t :=
  then_ net (fun r =>
    if negb (ok r) then
      then_ (json r) (fun j =>
        Throw (Error (str_or (UploadResult.error j) (lit "Analysis failed"))))
    else json r).

Definition dashboardSummary_request : request :=
  {| url := base ++ lit "/api/dashboard/summary"; method := lit "GET";
     headers := []; body := NoBody |}.

Definition dashboardSummary (net : completion (response DashboardSummary.t))
  : completion DashboardSummary.t :=
  then_ net (fun r => json r).

Definition dashboardHistory_request : request :=
  {| url := base ++ lit "/api/dashboard/history"; method := lit "GET";
     headers := []; body := NoBody |}.

Definition dashboardHistory (net : completion (response (list Recent.t)))
  : completion (list Recent.t) :=
  then_ net (fun r => json r).

End API.

(** * The page and the handler monad *)

Record world := {
  dom : gmap string element;
  alerts : list jsstring;      (* the notices shown by [alert], oldest first *)
  requests : list request;     (* the calls of [fetch], oldest first *)
}.

Definition with_dom (d : gmap string element) (w : world) : world :=
  {| dom := d; alerts := alerts w; requests := requests w |}.

Definition M (A : Type) : Type := world -> completion A * world.

#[global] Instance M_ret : MRet M := fun A a w => (Normal a, w).

#[global] Instance M_bind : MBind M := fun A B f m w =>
  match m w with
  | (Normal a, w') => f a w'
  | (Throw e, w') => (Throw e, w')
  end.

Definition lift {A} (c : completion A) : M A := fun w => (c, w).

(** [p.catch(h)] after the computation [m] that settles [p]. *)
Definition catch_ {A} (m : M A) (h : js_error -> M A) : M A := fun w =>
  match m w with
  | (Throw e, w') => h e w'
  | r => r
  end.

(** [p.finally(g)]: [g] runs on either settlement, which it passes on unless
    it throws itself. *)
Definition finally_ {A} (m : M A) (g : M unit) : M A := fun w =>
  let '(c, w') := m w in
  match g w' with
  | (Normal _, w'') => (c, w'')
  | (Throw e, w'') => (Throw e, w'')
  end.

(** The wording of the error raised by a property access on [null] belongs to
    the engine; nothing below depends on it. *)
Definition null_access : js_error :=
  TypeError (lit "Cannot read properties of null").

(** Reading and writing a property of the element with a given id, [null]
    when the document has no such element. *)
Definition read {A} (id : string) (get : element -> A) : M A := fun w =>
  match dom w !! id with
  | Some e => (Normal (get e), w)
  | None => (Throw null_access, w)
  end.

Definition write (id : string) (set : element -> element) : M unit := fun w =>
  match dom w !! id with
  | Some e => (Normal tt, with_dom (<[id := set e]> (dom w)) w)
  | None => (Throw null_access, w)
  end.

(** [if (el) ...] for [el = document.getElementById(id)]. *)
Definition when_present (id : string) (m : M unit) : M unit := fun w =>
  match dom w !! id with
  | Some _ => m w
  | None => (Normal tt, w)
  end.

Definition alert (msg : jsstring) : M unit := fun w =>
  (Normal tt, {| dom := dom w; alerts := alerts w ++ [msg];
                 requests := requests w |}).

Definition fetch (r : request) : M unit := fun w =>
  (Normal tt, {| dom := dom w; alerts := alerts w;
                 requests := requests w ++ [r] |}).

Definition set_value id v := write id (with_value v).
Definition set_innerHTML id h := write id (with_innerHTML h).
Definition set_textContent id s := write id (with_textContent s).
Definition set_disabled id b := write id (with_disabled b).
Definition classList_remove id (c : string) :=
  write id (fun e => with_classList (classList e ∖ {[c]}) e).
Definition classList_add id (c : string) :=
  write id (fun e => with_classList (classList e ∪ {[c]}) e).

(** * Dashboard summary: [loadDashboardSummary] *)

Definition could_not_load : jsstring :=
  lit "<p class='empty-state text-slate-500'>Could not load summary.</p>".

(** Before the call settles: the request goes out. *)
Definition loadDashboardSummary : M unit :=
  fetch API.dashboardSummary_request.

Definition on_summary_data (data : DashboardSummary.t) : M unit :=
  let byRisk := obj_or (DashboardSummary.by_risk_level data) RiskCounts.empty in
  when_present "stat-low"
    (set_textContent "stat-low"
       (Number.toString (num_or (RiskCounts.Low byRisk) 0%float)));;
  when_present "stat-medium"
    (set_textContent "stat-medium"
       (Number.toString (num_or (RiskCounts.Medium byRisk) 0%float)));;
  when_present "stat-high"
    (set_textContent "stat-high"
       (Number.toString (num_or (RiskCounts.High byRisk) 0%float)));;
  when_present "dept-bars" (set_innerHTML "dept-bars" (dept_bars data));;
  match DashboardSummary.recent data with
  | present (r :: rs) =>
      when_present "recent-triage-list"
        (set_innerHTML "recent-triage-list" (recent_feed (r :: rs)))
  | _ => mret tt
  end.

Definition on_summary_failed (_ : js_error) : M unit :=
  when_present "recent-triage-list"
    (set_innerHTML "recent-triage-list" could_not_load).

(** When the call settles to [net]. *)
Definition loadDashboardSummary_settled
    (net : completion (response DashboardSummary.t)) : M unit :=
  catch_ (data ← lift (API.dashboardSummary net); on_summary_data data)
         on_summary_failed.

(** * The symptoms page: [initSymptomsPage] *)

Definition skip : M unit := mret tt.

Definition fillFormFromPatient (p : field Patient.t) : M unit :=
  match p with
  | present p =>
      match Patient.age p with
      | present a => set_value "age" (Number.toString a)
      | _ => skip
      end;;
      (if truthy_string (Patient.gender p)
       then set_value "gender" (to_string (Patient.gender p))
       else skip);;
      (if truthy_string (Patient.symptoms p)
       then set_value "symptoms" (to_string (Patient.symptoms p))
       else skip);;
      match Patient.blood_pressure_systolic p,
            Patient.blood_pressure_diastolic p with
      | present s, present d =>
          set_value "blood_pressure"
            (Number.toString s ++ lit "/" ++ Number.toString d)
      | present s, _ => set_value "blood_pressure" (Number.toString s)
      | _, _ => skip
      end;;
      match Patient.heart_rate p with
      | present h => set_value "heart_rate" (Number.toString h)
      | _ => skip
      end;;
      match Patient.temperature p with
      | present t => set_value "temperature" (Number.toString t)
      | _ => skip
      end;;
      match Patient.pre_existing_conditions p with
      | present (c :: cs) =>
          set_value "pre_existing_conditions" (join (lit ", ") (c :: cs))
      | _ => skip
      end
  | _ => skip
  end.

(** ** Document upload lane *)

(** The [change] handler of the file input, up to the network call.  It is
    installed when the button and the input both exist. *)
Definition on_upload_change : M unit := fun w =>
  match dom w !! "btn-upload", dom w !! "doc-upload" with
  | Some _, Some uploadInput =>
      match files uploadInput with
      | f :: _ =>
          (set_textContent "upload-status" (lit "Uploading" ++ [ellipsis]);;
           fetch (API.uploadDocument_request f)) w
      | [] => (Normal tt, w)
      end
  | _, _ => (Normal tt, w)
  end.

Definition on_upload_settled (net : completion (response UploadResult.t))
  : M unit :=
  catch_
    (res ← lift (API.uploadDocument net);
     set_textContent "upload-status" (lit "Loaded.");;
     fillFormFromPatient (UploadResult.patient res))
    (fun err =>
       set_textContent "upload-status"
         (str_or (present (message err)) (lit "Upload failed"))).

(** ** Image analysis lane *)

(** [extractionError.classList.add('hidden'); extractionError.textContent = ''],
    when the page has the error panel. *)
Definition hide_extraction_error : M unit :=
  when_present "image-extraction-error"
    (classList_add "image-extraction-error" "hidden";;
     set_textContent "image-extraction-error" []).

(** The [change] handler of the image input, up to the network call.  It is
    installed when the button and the input both exist. *)
Definition on_image_change : M unit := fun w =>
  match dom w !! "btn-ehr-image", dom w !! "ehr-image-upload" with
  | Some _, Some ehrImageInput =>
      match files ehrImageInput with
      | f :: _ =>
          (when_present "image-extraction-output"
             (classList_remove "image-extraction-output" "hidden";;
              hide_extraction_error);;
           set_textContent "upload-status"
             (lit "Analyzing image with AI" ++ [ellipsis]);;
           fetch (API.analyzeDocumentImage_request f)) w
      | [] => (Normal tt, w)
      end
  | _, _ => (Normal tt, w)
  end.

(** The text [raw] shown for an analysed image. *)
Definition extracted_text (patient : field Patient.t) : jsstring :=
  match patient with
  | present p =>
      if truthy_string (Patient.raw_extraction p)
      then to_string (Patient.raw_extraction p)
      else if truthy_string (Patient.raw p) then to_string (Patient.raw p)
      else lit "No text extracted."
  | _ => lit "No text extracted."
  end.

Definition on_image_data (res : UploadResult.t) : M unit :=
  set_textContent "upload-status" (lit "Done. Form filled from extraction.");;
  fillFormFromPatient (UploadResult.patient res);;
  let raw := extracted_text (UploadResult.patient res) in
  when_present "image-extraction-text"
    (set_textContent "image-extraction-text" raw);;
  hide_extraction_error.

Definition on_image_failed (err : js_error) : M unit :=
  set_textContent "upload-status" (lit "Analysis failed.");;
  when_present "image-extraction-text"
    (set_textContent "image-extraction-text" []);;
  when_present "image-extraction-error"
    (set_textContent "image-extraction-error"
       (str_or (present (message err))
               (lit "Analysis failed. Check your image and try again."));;
     classList_remove "image-extraction-error" "hidden").

Definition on_image_settled (net : completion (response UploadResult.t))
  : M unit :=
  catch_ (res ← lift (API.analyzeDocumentImage net); on_image_data res)
         on_image_failed.

(** ** Triage submission lane *)

Definition analyzing_label : jsstring := lit "Analyzing" ++ [ellipsis].

Definition idle_label : jsstring :=
  lit "<span class='material-symbols-outlined' style='font-size:1.25rem'>medical_services</span> Run AI triage".

Definition nonempty (s : jsstring) : bool :=
  match s with [] => false | _ :: _ => true end.

Section SubmissionLane.

(** [parseInt(s, 10)] and [parseFloat(s)] of the host; their results only
    travel in the body of the request. *)
Variable parseInt10 : jsstring -> float.
Variable parseFloat : jsstring -> float.

Definition payload_of (age gender symptoms blood_pressure heart_rate
                       temperature : jsstring)
                      (pre_existing_conditions : list jsstring)
  : Payload.t :=
  {| Payload.age := if nonempty age then parseInt10 age else 35%float;
     Payload.gender := str_or (present gender) (lit "Unknown");
     Payload.symptoms := symptoms;
     Payload.blood_pressure :=
       if nonempty blood_pressure then present blood_pressure else absent;
     Payload.heart_rate :=
       if nonempty heart_rate then present (parseInt10 heart_rate)
       else absent;
     Payload.temperature :=
       if nonempty temperature then present (parseFloat temperature)
       else absent;
     Payload.pre_existing_conditions := pre_existing_conditions |}.

(** The [submit] handler of the form, up to the network call.  The fields
    are the controls that [form.age], [form.gender], ... name, found under
    the ids that [fillFormFromPatient] uses for them. *)
Definition on_submit : M unit :=
  age ← read "age" value;
  gender ← read "gender" value;
  symptoms ← read "symptoms" (fun e => trim (value e));
  blood_pressure ← read "blood_pressure" (fun e => trim (value e));
  heart_rate ← read "heart_rate" value;
  temperature ← read "temperature" value;
  conditions ← read "pre_existing_conditions" value;
  let pre_existing_conditions :=
    if nonempty conditions
    then filter (fun s => nonempty s = true)
                (map trim (split_conditions conditions))
    else [] in
  if negb (nonempty symptoms) then alert (lit "Please enter symptoms.")
  else
    set_disabled "btn-submit" true;;
    set_textContent "btn-submit" analyzing_label;;
    fetch (API.triage_request
             (payload_of age gender symptoms blood_pressure heart_rate
                         temperature pre_existing_conditions)).

End SubmissionLane.

Definition on_triage_data (data : TriageResult.t) : M unit :=
  set_innerHTML "result-content" (renderTriageResult data);;
  set_innerHTML "explain-content"
    (renderExplainability (TriageResult.contributing_factors data));;
  classList_remove "result-panel" "hidden";;
  classList_remove "explain-panel" "hidden";;
  loadDashboardSummary.

Definition on_triage_failed (err : js_error) : M unit :=
  alert (str_or (present (message err)) (lit "Triage request failed.")).

Definition restore_submit : M unit :=
  set_disabled "btn-submit" false;;
  set_innerHTML "btn-submit" idle_label.

(** The continuation of the submission when the call settles to [net]:
    [.then(...).catch(...).finally(...)]. *)
Definition on_triage_settled (net : completion (response TriageResult.t))
  : M unit :=
  finally_
    (catch_ (data ← lift (API.triage net); on_triage_data data)
            on_triage_failed)
    restore_submit.

(** * Specification-side definitions *)

(** The document after [f] is applied to the element [id], if there is one. *)
Definition update (id : string) (f : element -> element) (w : world) : world :=
  match dom w !! id with
  | Some e => with_dom (<[id := f e]> (dom w)) w
  | None => w
  end.

(** A computation leaves the element [id] as it is, however it completes. *)
Definition untouched {A} (id : string) (m : M A) : Prop :=
  forall w, dom (m w).2 !! id = dom w !! id.

(** The controls of the triage form. *)
Definition form_ids : list string :=
  ["age"; "gender"; "symptoms"; "blood_pressure"; "heart_rate"; "temperature";
   "pre_existing_conditions"]%string.

Definition has_form (w : world) : Prop :=
  forall id, id ∈ form_ids -> is_Some (dom w !! id).

(** The content of a form control, when the document has it. *)
Definition value_of (w : world) (id : string) : option jsstring :=
  value <$> dom w !! id.

(** The denominator of the department percentages in the words of the
    specification: [total_triages], or 1 when it is zero or absent. *)
Definition is_zero (x : float) : bool :=
  match Prim2SF x with S754_zero _ => true | _ => false end.

Definition is_nan (x : float) : bool :=
  match Prim2SF x with S754_nan => true | _ => false end.

Definition denominator (total_triages : field float) : float :=
  match total_triages with
  | present t => if is_zero t then 1%float else t
  | _ => 1%float
  end.

(** The value [(-1)^s * m * 2^e] lies within a half of the integer [q], the
    upper end excluded: twice the value is in [[2q - 1, 2q + 1)]. *)
Definition nearest_ties_up (s : bool) (m : positive) (e : Z) (q : Z) : Prop :=
  let v2 := 2 * (if s then Z.neg m else Z.pos m) in
  (2 * q - 1) * 2 ^ (- e) <= v2 < (2 * q + 1) * 2 ^ (- e).

(** Markup-free text: no angle bracket, and every ampersand opens one of the
    four character references of the serialization. *)
Fixpoint references_only (s : jsstring) : Prop :=
  match s with
  | [] => True
  | c :: r =>
      c <> 60%N /\ c <> 62%N /\
      (c = 38%N ->
       exists t, r = lit "amp;" ++ t \/ r = lit "lt;" ++ t
                 \/ r = lit "gt;" ++ t \/ r = lit "nbsp;" ++ t) /\
      references_only r
  end.

(** Reading the references back. *)
Fixpoint unescape_fuel (fuel : nat) (s : jsstring) : jsstring :=
  match fuel with
  | O => s
  | S f =>
      match s with
      | 38%N :: 97%N :: 109%N :: 112%N :: 59%N :: r => 38%N :: unescape_fuel f r
      | 38%N :: 108%N :: 116%N :: 59%N :: r => 60%N :: unescape_fuel f r
      | 38%N :: 103%N :: 116%N :: 59%N :: r => 62%N :: unescape_fuel f r
      | 38%N :: 110%N :: 98%N :: 115%N :: 112%N :: 59%N :: r =>
          160%N :: unescape_fuel f r
      | c :: r => c :: unescape_fuel f r
      | [] => []
      end
  end.

Definition unescape (s : jsstring) : jsstring := unescape_fuel (length s) s.

(** * Sample pages and data *)

Definition page_with_feed : world :=
  {| dom := {[ "recent-triage-list"%string := createElement;
               "stat-low"%string := with_innerHTML (lit "4") createElement;
               "dept-bars"%string := createElement ]};
     alerts := []; requests := [] |}.

(** Scenario 5 of the specification. *)
Definition scenario5 : DashboardSummary.t :=
  {| DashboardSummary.by_risk_level := absent;
     DashboardSummary.by_department :=
       present [(lit "ER", 3%float); (lit "Cardiology", 1%float)];
     DashboardSummary.total_triages := present 4%float;
     DashboardSummary.recent := absent |}.

Definition recent_entry (symptoms : field jsstring) (confidence : field float)
  : Recent.t :=
  {| Recent.risk_level := present (lit "High");
     Recent.patient_input :=
       present {| PatientInput.symptoms := symptoms |};
     Recent.recommended_department := present (lit "Cardiology");
     Recent.confidence_score := confidence |}.

Definition triage_with_confidence (confidence : field float)
  : TriageResult.t :=
  {| TriageResult.risk_level := present (lit "High");
     TriageResult.confidence_score := confidence;
     TriageResult.recommended_department := present (lit "Cardiology");
     TriageResult.alternative_departments := absent;
     TriageResult.summary := absent;
     TriageResult.contributing_factors := present [];
     TriageResult.error := absent |}.

Definition injected_factor : ExplainFactor :=
  {| factor := present (lit "Fever & chills");
     impact := present (lit "<img src=x onerror=alert(1)>");
     description := present (lit "a < b") |}.

Definition parse_error : js_error :=
  SyntaxError (lit "Unexpected token < in JSON at position 0").

(** What [fillFormFromPatient] stores in each control of the form, if
    anything, and the page once it has done so. *)
Definition number_text (v : field float) : option jsstring :=
  match v with present x => Some (Number.toString x) | _ => None end.

Definition string_text (v : field jsstring) : option jsstring :=
  match v with present (c :: s) => Some (c :: s) | _ => None end.

Definition blood_pressure_text (p : Patient.t) : option jsstring :=
  match Patient.blood_pressure_systolic p,
        Patient.blood_pressure_diastolic p with
  | present s, present d =>
      Some (Number.toString s ++ lit "/" ++ Number.toString d)
  | present s, _ => Some (Number.toString s)
  | _, _ => None
  end.

Definition conditions_text (p : Patient.t) : option jsstring :=
  match Patient.pre_existing_conditions p with
  | present (c :: cs) => Some (join (lit ", ") (c :: cs))
  | _ => None
  end.

Definition set_text (v : option jsstring) (e : element) : element :=
  match v with Some v => with_value v e | None => e end.

Definition update_if (id : string) (v : option jsstring) (w : world) : world :=
  match v with Some v => update id (with_value v) w | None => w end.

Definition filled (p : Patient.t) (w : world) : world :=
  update_if "pre_existing_conditions" (conditions_text p)
   (update_if "temperature" (number_text (Patient.temperature p))
     (update_if "heart_rate" (number_text (Patient.heart_rate p))
       (update_if "blood_pressure" (blood_pressure_text p)
         (update_if "symptoms" (string_text (Patient.symptoms p))
           (update_if "gender" (string_text (Patient.gender p))
             (update_if "age" (number_text (Patient.age p)) w)))))).

(** Scenario 4 of the specification, on a form that the user has begun. *)
Definition input (v : string) : element := with_value (lit v) createElement.

Definition begun_form : world :=
  {| dom := {[ "age"%string := input "40";
               "gender"%string := input "Female";
               "symptoms"%string := input "  chest pain ";
               "blood_pressure"%string := input "120/80";
               "heart_rate"%string := input "";
               "temperature"%string := input "";
               "pre_existing_conditions"%string := input "asthma; diabetes";
               "btn-submit"%string := with_innerHTML idle_label createElement;
               "upload-status"%string := createElement ]};
     alerts := []; requests := [] |}.

Definition scenario4 : Patient.t :=
  {| Patient.age := present 52%float;
     Patient.gender := absent;
     Patient.symptoms := absent;
     Patient.blood_pressure_systolic := present 130%float;
     Patient.blood_pressure_diastolic := present 85%float;
     Patient.heart_rate := absent;
     Patient.temperature := absent;
     Patient.pre_existing_conditions := absent;
     Patient.raw_extraction := absent;
     Patient.raw := absent |}.

(** A patient object whose values are all present and all empty or zero. *)
Definition empty_values : Patient.t :=
  {| Patient.age := present 0%float;
     Patient.gender := present [];
     Patient.symptoms := present [];
     Patient.blood_pressure_systolic := present 0%float;
     Patient.blood_pressure_diastolic := present 0%float;
     Patient.heart_rate := present 0%float;
     Patient.temperature := present 0%float;
     Patient.pre_existing_conditions := present [];
     Patient.raw_extraction := absent;
     Patient.raw := absent |}.

(** A host on which no field of the form holds a number. *)
Definition parse_nan (_ : jsstring) : float := nan.

Definition failed_to_fetch : js_error := TypeError (lit "Failed to fetch").

(** * Definitions for the further properties *)

(** The number of angle brackets of a string. *)
Definition brackets (s : jsstring) : nat :=
  count_occ N.eq_dec s 60%N + count_occ N.eq_dec s 62%N.

(** The code units that the decimal form of a number is made of: the digits
    and the letters and signs of [1.5e+21], [-Infinity] and [NaN]. *)
Definition number_unit (c : N) : Prop :=
  (48 <= c <= 57)%N \/ c ∈ lit ".e+-NaInfity".

(** A triage result with the defaults of [renderTriageResult] written in. *)
Definition with_defaults (data : TriageResult.t) : TriageResult.t :=
  {| TriageResult.risk_level :=
       present (str_or (TriageResult.risk_level data) (lit "Low"));
     TriageResult.confidence_score :=
       match TriageResult.confidence_score data with
       | present c => present c
       | _ => present 0%float
       end;
     TriageResult.recommended_department :=
       present (str_or (TriageResult.recommended_department data)
                       (lit "General Medicine"));
     TriageResult.alternative_departments :=
       present (obj_or (TriageResult.alternative_departments data) []);
     TriageResult.summary := present (str_or (TriageResult.summary data) []);
     TriageResult.contributing_factors :=
       TriageResult.contributing_factors data;
     TriageResult.error := TriageResult.error data |}.

#[global] Instance number_unit_dec c : Decision (number_unit c).
Proof. unfold number_unit. apply _. Defined.

(** Scenario 1 of the specification. *)
Definition scenario1 : TriageResult.t :=
  {| TriageResult.risk_level := present (lit "High");
     TriageResult.confidence_score := present 0.87%float;
     TriageResult.recommended_department := present (lit "Cardiology");
     TriageResult.alternative_departments := absent;
     TriageResult.summary := absent;
     TriageResult.contributing_factors := present [];
     TriageResult.error := absent |}.

(** The answer of Scenario 3: status 503 with an error message. *)
Definition scenario3_body : TriageResult.t :=
  {| TriageResult.risk_level := absent;
     TriageResult.confidence_score := absent;
     TriageResult.recommended_department := absent;
     TriageResult.alternative_departments := absent;
     TriageResult.summary := absent;
     TriageResult.contributing_factors := absent;
     TriageResult.error := present (lit "model unavailable") |}.

Definition panel : element :=
  with_classList {[ "hidden"%string ]} createElement.

(** The symptoms page with its panels and the dashboard containers. *)
Definition symptoms_page : world :=
  {| dom := {[ "result-panel"%string := panel;
               "result-content"%string := createElement;
               "explain-panel"%string := panel;
               "explain-content"%string := createElement;
               "btn-upload"%string := createElement;
               "doc-upload"%string :=
                 {| value := []; innerHTML := []; disabled := false;
                    classList := ∅;
                    files := [ {| file_name := lit "record.pdf" |} ] |};
               "btn-ehr-image"%string := createElement;
               "ehr-image-upload"%string :=
                 {| value := []; innerHTML := []; disabled := false;
                    classList := ∅;
                    files := [ {| file_name := lit "scan.png" |} ] |};
               "image-extraction-output"%string := panel;
               "image-extraction-text"%string := createElement;
               "image-extraction-error"%string := panel ]}
            ∪ dom begun_form ∪ dom page_with_feed;
     alerts := []; requests := [] |}.

(** The text of a risk counter: the count, or 0 when the key is missing,
    null or zero. *)
Definition shown_count (v : field float) : jsstring :=
  match v with
  | present x => if Number.truthy x then Number.toString x else lit "0"
  | _ => lit "0"
  end.

(** The elements that each lane writes to. *)
Definition dashboard_ids : list string :=
  ["stat-low"; "stat-medium"; "stat-high"; "dept-bars";
   "recent-triage-list"]%string.

Definition triage_ids : list string :=
  ["result-content"; "explain-content"; "result-panel"; "explain-panel";
   "btn-submit"]%string.

Definition upload_ids : list string := "upload-status"%string :: form_ids.

Definition image_ids : list string :=
  ["image-extraction-text"; "image-extraction-error"]%string ++ upload_ids.

Definition has_all (ids : list string) (w : world) : Prop :=
  forall id, id ∈ ids -> is_Some (dom w !! id).

(** A series of updates, the last of the list first. *)
Definition updates (l : list (string * (element -> element))) (w : world)
  : world :=
  foldr (fun '(id, f) w => update id f w) w l.

Definition upload_answer : UploadResult.t :=
  {| UploadResult.patient := present scenario4; UploadResult.error := absent |}.

(** An analysed image whose text comes under both names. *)
Definition image_answer : UploadResult.t :=
  {| UploadResult.patient :=
       present
         {| Patient.age := absent; Patient.gender := absent;
            Patient.symptoms := present (lit "cough & fever");
            Patient.blood_pressure_systolic := absent;
            Patient.blood_pressure_diastolic := absent;
            Patient.heart_rate := absent; Patient.temperature := absent;
            Patient.pre_existing_conditions := absent;
            Patient.raw_extraction := present (lit "BP <130/85>");
            Patient.raw := present (lit "ignored") |};
     UploadResult.error := absent |}.

(** A string that neither begins nor ends with white space. *)
Definition trimmed (s : jsstring) : Prop :=
  (forall c, head s = Some c -> is_space c = false) /\
  (forall c, last s = Some c -> is_space c = false).

(** The list of conditions that [on_submit] sends for the text of the
    conditions field. *)
Definition conditions_of (conditions : jsstring) : list jsstring :=
  if nonempty conditions
  then filter (fun s => nonempty s = true)
              (map trim (split_conditions conditions))
  else [].

(** A form with only the symptoms filled in. *)
Definition bare_form : world :=
  {| dom := {[ "age"%string := input "";
               "gender"%string := input "";
               "symptoms"%string := input "headache";
               "blood_pressure"%string := input "  ";
               "heart_rate"%string := input "";
               "temperature"%string := input "";
               "pre_existing_conditions"%string :=
                 input " asthma ;; type 2 diabetes, ,";
               "btn-submit"%string := with_innerHTML idle_label createElement ]};
     alerts := []; requests := [] |}.

(** The body [{error: "db down"}] of a failed summary request, seen as a
    summary: none of the properties of a summary is there. *)
Definition error_summary : DashboardSummary.t :=
  {| DashboardSummary.by_risk_level := absent;
     DashboardSummary.by_department := absent;
     DashboardSummary.total_triages := absent;
     DashboardSummary.recent := absent |}.

(** * Properties *)

(** ** Running handlers *)

Lemma bind_run {A B} (m : M A) (k : A -> M B) w :
  (m ≫= k) w =
  match m w with
  | (Normal a, w') => k a w'
  | (Throw e, w') => (Throw e, w')
  end.
Proof. reflexivity. Qed.

Lemma lookup_update id f w id' :
  dom (update id f w) !! id' =
  if decide (id = id') then f <$> dom w !! id else dom w !! id'.
Proof.
  unfold update. destruct (dom w !! id) as [e|] eqn:He; simpl.
  - case_decide as Hid.
    + subst id'. rewrite lookup_insert_eq. reflexivity.
    + rewrite lookup_insert_ne by assumption. reflexivity.
  - case_decide as Hid; [subst id'; rewrite He|]; reflexivity.
Qed.

Lemma lookup_update_eq id f w :
  dom (update id f w) !! id = f <$> dom w !! id.
Proof. rewrite lookup_update. case_decide; congruence. Qed.

Lemma lookup_update_ne id f w id' :
  id <> id' -> dom (update id f w) !! id' = dom w !! id'.
Proof. intros Hne. rewrite lookup_update. case_decide; congruence. Qed.

Lemma alerts_update id f w : alerts (update id f w) = alerts w.
Proof. unfold update. destruct (dom w !! id); reflexivity. Qed.

Lemma requests_update id f w : requests (update id f w) = requests w.
Proof. unfold update. destruct (dom w !! id); reflexivity. Qed.

Lemma update_missing id f w : dom w !! id = None -> update id f w = w.
Proof. intros H. unfold update. rewrite H. reflexivity. Qed.

Lemma write_run id f w :
  write id f w =
  (match dom w !! id with Some _ => Normal tt | None => Throw null_access end,
   update id f w).
Proof. unfold write, update. destruct (dom w !! id); reflexivity. Qed.

Lemma write_present id f w :
  is_Some (dom w !! id) -> write id f w = (Normal tt, update id f w).
Proof. intros [e He]. rewrite write_run, He. reflexivity. Qed.

Lemma when_present_write id f w :
  when_present id (write id f) w = (Normal tt, update id f w).
Proof.
  unfold when_present, write, update.
  destruct (dom w !! id); reflexivity.
Qed.

Lemma read_present {A} id (get : element -> A) w e :
  dom w !! id = Some e -> read id get w = (Normal (get e), w).
Proof. intros He. unfold read. rewrite He. reflexivity. Qed.

(** ** Elements that a handler does not touch *)

Lemma untouched_ret {A} id (a : A) : untouched id (mret a : M A).
Proof. intros w. reflexivity. Qed.

Lemma untouched_bind {A B} id (m : M A) (k : A -> M B) :
  untouched id m -> (forall a, untouched id (k a)) -> untouched id (m ≫= k).
Proof.
  intros Hm Hk w. rewrite bind_run. specialize (Hm w).
  destruct (m w) as [[a|e] w']; simpl in *.
  - rewrite Hk. assumption.
  - assumption.
Qed.

Lemma untouched_lift {A} id (c : completion A) : untouched id (lift c).
Proof. intros w. reflexivity. Qed.

Lemma untouched_write id id' f : id' <> id -> untouched id (write id' f).
Proof.
  intros Hne w. rewrite write_run. simpl. apply lookup_update_ne, Hne.
Qed.

Lemma untouched_when_present id id' m :
  untouched id m -> untouched id (when_present id' m).
Proof.
  intros Hm w. unfold when_present. destruct (dom w !! id'); [apply Hm | reflexivity].
Qed.

Lemma untouched_alert id msg : untouched id (alert msg).
Proof. intros w. reflexivity. Qed.

Lemma untouched_fetch id r : untouched id (fetch r).
Proof. intros w. reflexivity. Qed.

Lemma untouched_catch {A} id (m : M A) h :
  untouched id m -> (forall e, untouched id (h e)) -> untouched id (catch_ m h).
Proof.
  intros Hm Hh w. unfold catch_. specialize (Hm w).
  destruct (m w) as [[a|e] w']; simpl in *.
  - assumption.
  - rewrite Hh. assumption.
Qed.

Lemma untouched_finally {A} id (m : M A) g :
  untouched id m -> untouched id g -> untouched id (finally_ m g).
Proof.
  intros Hm Hg w. unfold finally_. specialize (Hm w).
  destruct (m w) as [c w']; simpl in *. specialize (Hg w').
  destruct (g w') as [[[]|e] w'']; simpl in *; congruence.
Qed.

Create HintDb frame discriminated.
#[local] Hint Resolve untouched_ret untouched_lift untouched_alert
  untouched_fetch : frame.
#[local] Hint Extern 1 (untouched _ (mret _)) => apply untouched_ret : frame.
#[local] Hint Extern 1 (untouched _ skip) => apply untouched_ret : frame.
#[local] Hint Extern 2 (untouched _ (_ ≫= _)) =>
  apply untouched_bind; [|intros ?] : frame.
#[local] Hint Extern 2 (untouched _ (catch_ _ _)) =>
  apply untouched_catch; [|intros ?] : frame.
#[local] Hint Extern 2 (untouched _ (finally_ _ _)) =>
  apply untouched_finally : frame.
#[local] Hint Extern 2 (untouched _ (when_present _ _)) =>
  apply untouched_when_present : frame.
#[local] Hint Extern 2 (untouched _ (write _ _)) =>
  apply untouched_write; congruence : frame.

Ltac frame :=
  repeat match goal with
         | |- untouched _ (match ?x with _ => _ end) => destruct x
         | |- untouched _ (if ?b then _ else _) => destruct b
         end;
  auto 20 with frame.

(** ** Numbers *)

Lemma truthy_one : Number.truthy 1 = true.
Proof. reflexivity. Qed.

Lemma truthy_num_or v : Number.truthy (num_or v 1) = true.
Proof.
  destruct v as [| |x]; simpl; try apply truthy_one.
  destruct (Number.truthy x) eqn:Hx; [exact Hx | apply truthy_one].
Qed.

Lemma num_or_denominator v :
  (forall t, v = present t -> is_nan t = false) ->
  num_or v 1 = denominator v.
Proof.
  intros Hnan. destruct v as [| |x]; simpl; try reflexivity.
  specialize (Hnan x eq_refl). revert Hnan.
  unfold Number.truthy, is_zero, is_nan.
  destruct (Prim2SF x); intros; congruence.
Qed.

(** [Math.round] rounds to the nearest integer, upwards on a tie; it does not
    truncate. *)
Lemma round_half_up_nearest s m e :
  e < 0 -> nearest_ties_up s m e (Number.round_half_up s m e).
Proof.
  intros He. unfold nearest_ties_up, Number.round_half_up.
  set (v := if s then Z.neg m else Z.pos m).
  assert (Hd : 0 < 2 ^ (- e)) by (apply Z.pow_pos_nonneg; lia).
  set (d := 2 ^ (- e)) in *.
  pose proof (Z.div_mod (2 * v + d) (2 * d) ltac:(lia)) as Hdm.
  pose proof (Z.mod_pos_bound (2 * v + d) (2 * d) ltac:(lia)) as Hb.
  set (q := (2 * v + d) / (2 * d)) in *.
  nia.
Qed.

Lemma round_finite x s m e :
  Prim2SF x = S754_finite s m e -> e < 0 ->
  Number.round x =
  let q := Number.round_half_up s m e in
  if q =? 0 then (if s then (- 0)%float else 0%float) else Number.of_Z q.
Proof.
  intros Hx He. unfold Number.round. rewrite Hx.
  destruct (0 <=? e) eqn:H0; [apply Z.leb_le in H0; lia | reflexivity].
Qed.

Example round_examples :
  map (fun x => Number.toString (Number.round x))
      [0.87 * 100; 0.876 * 100; 0.5; 1.5; 2.5; 0.4; -0.5; 3 / 4 * 100;
       1 / 3 * 100]%float
  = map lit ["87"; "88"; "1"; "2"; "3"; "0"; "0"; "75"; "33"]%string.
Proof. vm_compute. reflexivity. Qed.

Example toString_examples :
  map Number.toString [0; 52; 130; 85; 98.6; 37.5; -2; 0.5; 1e21; 1e-7]%float
  = map lit ["0"; "52"; "130"; "85"; "98.6"; "37.5"; "-2"; "0.5"; "1e+21";
             "1e-7"]%string.
Proof. vm_compute. reflexivity. Qed.

(** ** Dashboard summary *)

Lemma dashboardSummary_rejects net err :
  API.dashboardSummary net = Throw err <->
  net = Throw err \/ exists r, net = Normal r /\ json r = Throw err.
Proof.
  unfold API.dashboardSummary, then_. split.
  - destruct net as [r|e]; intros H.
    + right. exists r. split; [reflexivity | exact H].
    + left. congruence.
  - intros [-> | (r & -> & Hr)]; [reflexivity | exact Hr].
Qed.

Lemma on_summary_data_run data w :
  on_summary_data data w =
  (Normal tt,
   let byRisk := obj_or (DashboardSummary.by_risk_level data) RiskCounts.empty in
   let w1 := update "stat-low" (with_textContent
               (Number.toString (num_or (RiskCounts.Low byRisk) 0))) w in
   let w2 := update "stat-medium" (with_textContent
               (Number.toString (num_or (RiskCounts.Medium byRisk) 0))) w1 in
   let w3 := update "stat-high" (with_textContent
               (Number.toString (num_or (RiskCounts.High byRisk) 0))) w2 in
   let w4 := update "dept-bars" (with_innerHTML (dept_bars data)) w3 in
   match DashboardSummary.recent data with
   | present (r :: rs) =>
       update "recent-triage-list" (with_innerHTML (recent_feed (r :: rs))) w4
   | _ => w4
   end).
Proof.
  unfold on_summary_data, set_textContent, set_innerHTML.
  repeat (rewrite bind_run, when_present_write). cbv zeta.
  destruct (DashboardSummary.recent data) as [| |[|r rs]];
    try reflexivity.
  apply when_present_write.
Qed.

(** When the promise of [API.dashboardSummary] is rejected (no response, or
    a body that does not parse), the handler completes normally, the
    recent-activity container, if the page has one, receives the fixed
    "Could not load summary." markup, and every other element, the risk
    counts and the department bars among them, is left as it was; no notice
    is shown and no call is made. *)
Lemma summary_failure_replaces_only_recent_feed net err w :
  API.dashboardSummary net = Throw err ->
  let '(c, w') := loadDashboardSummary_settled net w in
  c = Normal tt /\
  dom w' !! "recent-triage-list"
    = with_innerHTML could_not_load <$> dom w !! "recent-triage-list" /\
  (forall id, id <> "recent-triage-list"%string -> dom w' !! id = dom w !! id) /\
  alerts w' = alerts w /\ requests w' = requests w.
Proof.
  intros Hfail.
  unfold loadDashboardSummary_settled, catch_. rewrite bind_run.
  unfold lift. rewrite Hfail.
  unfold on_summary_failed, set_innerHTML. rewrite when_present_write.
  split; [reflexivity|]. split; [apply lookup_update_eq|].
  split; [|split; [apply alerts_update | apply requests_update]].
  intros id Hid. apply lookup_update_ne. congruence.
Qed.

Lemma summary_failure_replaces_only_recent_feed_witness :
  let '(c, w') :=
    loadDashboardSummary_settled
      (Throw (TypeError (lit "Failed to fetch"))) page_with_feed in
  c = Normal tt /\
  dom w' !! "recent-triage-list"
    = with_innerHTML could_not_load
        <$> dom page_with_feed !! "recent-triage-list" /\
  (forall id, id <> "recent-triage-list"%string ->
              dom w' !! id = dom page_with_feed !! id) /\
  alerts w' = alerts page_with_feed /\ requests w' = requests page_with_feed.
Proof.
  apply (summary_failure_replaces_only_recent_feed
           (Throw (TypeError (lit "Failed to fetch")))
           (TypeError (lit "Failed to fetch")) page_with_feed).
  reflexivity.
Defined.

(** C6 on a non-success response whose body parses (status 500, body
    [{error: "db down"}]): the handler takes the body for a summary, so the
    counter that showed 4 shows 0, the department bars receive the "No data
    yet." placeholder, and the recent feed is left as it was instead of
    receiving the "Could not load summary." message. *)
Theorem summary_error_response_overwrites_panels :
  let w := page_with_feed in
  let w' :=
    (loadDashboardSummary_settled
       (Normal {| ok := false; json := Normal error_summary |}) w).2 in
  innerHTML <$> dom w !! "stat-low" = Some (lit "4") /\
  innerHTML <$> dom w' !! "stat-low" = Some (lit "0") /\
  innerHTML <$> dom w !! "dept-bars" = Some [] /\
  innerHTML <$> dom w' !! "dept-bars"
    = Some (lit "<p class='empty-state' style='margin:0;'>No data yet.</p>") /\
  dom w' !! "recent-triage-list" = dom w !! "recent-triage-list" /\
  innerHTML <$> dom w' !! "recent-triage-list" <> Some could_not_load.
Proof.
  cbv zeta. repeat split; try (vm_compute; reflexivity).
  vm_compute. discriminate.
Qed.

(** The markup of one department bar, for a name, a percentage and a count. *)
Lemma dept_item_markup total dept count :
  dept_item total (dept, count) =
  lit "<div class='dept-item'><div class='dept-item-name'>"
  ++ escapeHtml (present dept)
  ++ lit "</div><div class='dept-item-bar'><div class='dept-item-fill' style='width:"
  ++ Number.toString (dept_pct count total)
  ++ lit "%'></div></div><div class='dept-item-count'>"
  ++ Number.toString count ++ lit "</div></div>".
Proof. reflexivity. Qed.

Lemma join_empty_concat (l : list jsstring) : join [] l = concat l.
Proof.
  induction l as [|x [|y l] IH]; simpl in *.
  - reflexivity.
  - symmetry. apply app_nil_r.
  - rewrite IH. reflexivity.
Qed.

(** C8.  After a summary is received, the department container (when the
    page has one) holds: the fixed "No data yet." placeholder when
    [by_department] has no key (or is absent); otherwise, for each key in
    order, a bar whose width is [Math.round(count / total * 100)] percent,
    where [total] is [total_triages], or 1 when that is zero or absent,
    followed by the raw count. *)
Theorem department_bars_percentages net data w e :
  API.dashboardSummary net = Normal data ->
  dom w !! "dept-bars" = Some e ->
  (forall t, DashboardSummary.total_triages data = present t ->
             is_nan t = false) ->
  let '(c, w') := loadDashboardSummary_settled net w in
  c = Normal tt /\
  dom w' !! "dept-bars" =
  Some (with_innerHTML
    match obj_or (DashboardSummary.by_department data) [] with
    | [] => lit "<p class='empty-state' style='margin:0;'>No data yet.</p>"
    | entries =>
        concat (map (fun '(dept, count) =>
          lit "<div class='dept-item'><div class='dept-item-name'>"
          ++ escapeHtml (present dept)
          ++ lit "</div><div class='dept-item-bar'><div class='dept-item-fill' style='width:"
          ++ Number.toString
               (Number.round
                  (count / denominator (DashboardSummary.total_triages data)
                   * 100))
          ++ lit "%'></div></div><div class='dept-item-count'>"
          ++ Number.toString count ++ lit "</div></div>") entries)
    end e).
Proof.
  intros Hdata He Hnan.
  unfold loadDashboardSummary_settled, catch_. rewrite bind_run.
  unfold lift. rewrite Hdata, on_summary_data_run. cbv zeta.
  split; [reflexivity|].
  match goal with
  | |- dom ?w' !! _ = _ =>
      assert (Hw : dom w' !! "dept-bars" =
                   Some (with_innerHTML (dept_bars data) e))
  end.
  { destruct (DashboardSummary.recent data) as [| |[|r rs]];
      rewrite ?(lookup_update_ne "recent-triage-list") by discriminate;
      rewrite lookup_update_eq;
      rewrite !lookup_update_ne by discriminate;
      rewrite He; reflexivity. }
  rewrite Hw. f_equal. f_equal.
  unfold dept_bars. rewrite (num_or_denominator _ Hnan).
  destruct (obj_or (DashboardSummary.by_department data) []) as [|x l];
    [reflexivity|].
  rewrite join_empty_concat. f_equal. apply map_ext. intros [dept count].
  unfold dept_item, dept_pct.
  assert (Ht : Number.truthy (denominator (DashboardSummary.total_triages data))
               = true).
  { rewrite <- (num_or_denominator _ Hnan). apply truthy_num_or. }
  rewrite Ht. reflexivity.
Qed.

Lemma department_bars_percentages_witness :
  let '(c, w') :=
    loadDashboardSummary_settled
      (Normal {| ok := true; json := Normal scenario5 |}) page_with_feed in
  c = Normal tt /\
  innerHTML <$> dom w' !! "dept-bars" =
  Some (lit "<div class='dept-item'><div class='dept-item-name'>ER</div><div class='dept-item-bar'><div class='dept-item-fill' style='width:75%'></div></div><div class='dept-item-count'>3</div></div><div class='dept-item'><div class='dept-item-name'>Cardiology</div><div class='dept-item-bar'><div class='dept-item-fill' style='width:25%'></div></div><div class='dept-item-count'>1</div></div>").
Proof.
  pose proof (department_bars_percentages
                (Normal {| ok := true; json := Normal scenario5 |})
                scenario5 page_with_feed createElement) as H.
  destruct (loadDashboardSummary_settled _ page_with_feed) as [c w'].
  destruct H as [Hc Hw].
  - reflexivity.
  - vm_compute. reflexivity.
  - intros t [= <-]. reflexivity.
  - split; [exact Hc|]. rewrite Hw. vm_compute. reflexivity.
Defined.

(** ** The recent feed *)

(** C9 as stated fails on the empty string: it has at most 60 characters, and
    its excerpt is the em-dash placeholder, not the string itself. *)
Lemma excerpt_of_empty_symptoms :
  (length ([] : jsstring) <= 60)%nat /\
  recent_sym (recent_entry (present []) absent) = [em_dash] /\
  recent_sym (recent_entry (present []) absent) <> [].
Proof. split; [simpl; lia|]. split; [reflexivity | discriminate]. Qed.

(** C9, amended.  For a non-empty symptoms string, the excerpt is its first
    60 characters followed by the truncation marker when it is longer than
    60, and the string itself, without marker, when it has at most 60
    characters; when the symptoms are absent, null or the empty string, or
    the entry has no patient input, the excerpt is the em-dash placeholder. *)
Theorem recent_excerpt r :
  (forall p s, Recent.patient_input r = present p ->
     PatientInput.symptoms p = present s -> s <> [] ->
     ((60 < length s)%nat -> recent_sym r = take 60 s ++ [ellipsis]) /\
     ((length s <= 60)%nat -> recent_sym r = s)) /\
  (is_nullish (Recent.patient_input r) = true -> recent_sym r = [em_dash]) /\
  (forall p, Recent.patient_input r = present p ->
     truthy_string (PatientInput.symptoms p) = false ->
     recent_sym r = [em_dash]).
Proof.
  unfold recent_sym. split; [|split].
  - intros p s -> -> Hs. destruct s as [|c s]; [congruence|].
    split; intros Hlen.
    + apply Nat.ltb_lt in Hlen. rewrite Hlen. reflexivity.
    + assert (H60 : (60 <? length (c :: s))%nat = false)
        by (apply Nat.ltb_ge; exact Hlen).
      rewrite H60, app_nil_r. apply take_ge. exact Hlen.
  - destruct (Recent.patient_input r); simpl; congruence.
  - intros p -> Hp.
    destruct (PatientInput.symptoms p) as [| |[|c s]]; simpl in *; congruence.
Qed.

Lemma recent_excerpt_witness :
  recent_sym (recent_entry (present (lit "chest pain")) absent)
  = lit "chest pain".
Proof.
  apply (proj1 (recent_excerpt
                  (recent_entry (present (lit "chest pain")) absent))
               {| PatientInput.symptoms := present (lit "chest pain") |}
               (lit "chest pain") eq_refl eq_refl).
  - discriminate.
  - simpl. lia.
Defined.

(** The rendered confidence of a recent entry whose score is neither absent
    nor zero (nor NaN) is [Math.round(score * 100)] followed by the percent
    sign; an absent score gives the empty string. *)
Lemma recent_confidence_present r c :
  Recent.confidence_score r = present c -> Number.truthy c = true ->
  recent_confidence r = Number.toString (Number.round (c * 100)) ++ lit "%".
Proof.
  intros Hc Ht. unfold recent_confidence, truthy_number. rewrite Hc, Ht.
  reflexivity.
Qed.

Lemma recent_confidence_absent r :
  is_nullish (Recent.confidence_score r) = true -> recent_confidence r = [].
Proof.
  unfold recent_confidence. destruct (Recent.confidence_score r); simpl;
    congruence.
Qed.

Lemma toString_zero : Number.toString 0 = lit "0".
Proof. vm_compute. reflexivity. Qed.

(** In the result panel the confidence cell is [Math.round(score * 100)]
    percent for every score that is present, and "0%" otherwise. *)
Lemma result_confidence data :
  exists pre post,
    renderTriageResult data =
    pre
    ++ lit "<div class='result-row'><span class='result-label'>Confidence</span><span class='result-value'>"
    ++ match TriageResult.confidence_score data with
       | present c => Number.toString (Number.round (c * 100))
       | _ => lit "0"
       end ++ lit "%</span></div>" ++ post.
Proof.
  unfold renderTriageResult. cbv zeta.
  set (risk := str_or (TriageResult.risk_level data) (lit "Low")).
  exists (lit "<div class='result-row'><span class='result-label'>Risk level</span><span class='result-value "
          ++ riskValueClass (present risk) ++ lit "'>"
          ++ escapeHtml (present risk) ++ lit "</span></div>").
  destruct (TriageResult.confidence_score data);
    rewrite ?toString_zero;
    destruct (obj_or (TriageResult.alternative_departments data) []),
             (str_or (TriageResult.summary data) []);
    eexists; rewrite app_nil_l, <- !app_assoc; reflexivity.
Qed.

(** C4 at a confidence score of zero: the result panel shows "0%", as for any
    score, but the cell of the recent feed is empty, as for an absent score. *)
Theorem zero_confidence_in_recent_feed :
  recent_confidence (recent_entry (present (lit "chest pain")) (present 0%float))
  = [] /\
  recent_item (recent_entry (present (lit "chest pain")) (present 0%float))
  = lit "<div class='recent-item'><div><p class='recent-item-dept'>Cardiology</p><p class='recent-item-symptoms'>chest pain</p></div><div class='recent-item-meta'><span class='badge badge-high'>High</span><span style='font-size:0.75rem;color:var(--color-text-muted)'></span></div></div>" /\
  renderTriageResult (triage_with_confidence (present 0%float))
  = lit "<div class='result-row'><span class='result-label'>Risk level</span><span class='result-value risk-high'>High</span></div><div class='result-row'><span class='result-label'>Confidence</span><span class='result-value'>0%</span></div><div class='result-row'><span class='result-label'>Recommended department</span></div><p class='result-dept' style='margin:0 0 0.75rem 0'>Cardiology</p>".
Proof. repeat split; vm_compute; reflexivity. Qed.

(** ** Escaping *)

Lemma escape_unit_references_only c t :
  references_only t -> references_only (escape_unit c ++ t).
Proof.
  intros Ht. unfold escape_unit.
  destruct (c =? 38)%N eqn:H38.
  { simpl. repeat split; try discriminate; try exact Ht.
    intros _. exists t. left. reflexivity. }
  destruct (c =? 160)%N eqn:H160.
  { simpl. repeat split; try discriminate; try exact Ht.
    intros _. exists t. right. right. right. reflexivity. }
  destruct (c =? 60)%N eqn:H60.
  { simpl. repeat split; try discriminate; try exact Ht.
    intros _. exists t. right. left. reflexivity. }
  destruct (c =? 62)%N eqn:H62.
  { simpl. repeat split; try discriminate; try exact Ht.
    intros _. exists t. right. right. left. reflexivity. }
  apply N.eqb_neq in H38, H60, H62. simpl.
  repeat split; try assumption. intros ->. congruence.
Qed.

Lemma escape_text_references_only s : references_only (escape_text s).
Proof.
  unfold escape_text. induction s as [|c s IH]; simpl.
  - exact I.
  - apply escape_unit_references_only, IH.
Qed.

(** What [escapeHtml] returns is free of markup, whatever the text. *)
Lemma escapeHtml_references_only v : references_only (escapeHtml v).
Proof.
  destruct v as [| |s]; simpl; try exact I. apply escape_text_references_only.
Qed.

(** C1 on the impact label: the factor label and the description come out
    escaped, the impact label is copied into the markup as it is. *)
Theorem impact_label_not_escaped :
  renderExplainability (present [injected_factor]) =
  lit "<ul class='explain-list'><li class='explain-item'><span class='explain-factor'>Fever &amp; chills</span><span class='explain-impact low'>(<img src=x onerror=alert(1)>)</span><p class='explain-desc'>a &lt; b</p></li></ul>".
Proof. vm_compute. reflexivity. Qed.

(** ** Transport client *)

(** C2 as stated fails twice: when the body of a non-success response does
    not parse, the failure carries the parser's error and not the generic
    message; and the two dashboard operations do not look at the status, so a
    non-success response with a body that parses is a success. *)
Lemma transport_failure_counterexamples :
  API.triage (Normal {| ok := false; json := Throw parse_error |})
    = Throw parse_error /\
  message parse_error <> lit "Triage failed" /\
  API.dashboardSummary (Normal {| ok := false; json := Normal scenario5 |})
    = Normal scenario5.
Proof. split; [reflexivity|]. split; [discriminate | reflexivity]. Qed.

(** C2, amended.  For the three POST operations, a non-success response
    whose body parses to an object is a failure whose message is the [error]
    of the body when that is a non-empty string, and the generic message of
    the operation when the [error] is missing, null or the empty string;
    when the body does not parse, the failure is the parser's own error. *)
Theorem transport_failure_contract :
  (forall j,
     API.triage (Normal {| ok := false; json := Normal j |}) =
     Throw (Error match TriageResult.error j with
                  | present (c :: m) => c :: m
                  | present [] | null | absent => lit "Triage failed"
                  end)) /\
  (forall j,
     API.uploadDocument (Normal {| ok := false; json := Normal j |}) =
     Throw (Error match UploadResult.error j with
                  | present (c :: m) => c :: m
                  | present [] | null | absent => lit "Upload failed"
                  end)) /\
  (forall j,
     API.analyzeDocumentImage (Normal {| ok := false; json := Normal j |}) =
     Throw (Error match UploadResult.error j with
                  | present (c :: m) => c :: m
                  | present [] | null | absent => lit "Analysis failed"
                  end)) /\
  (forall e,
     API.triage (Normal {| ok := false; json := Throw e |}) = Throw e /\
     API.uploadDocument (Normal {| ok := false; json := Throw e |}) = Throw e /\
     API.analyzeDocumentImage (Normal {| ok := false; json := Throw e |})
       = Throw e).
Proof.
  repeat split.
Qed.

(** ** Filling the form *)

Lemma elem_of_form_ids id :
  id ∈ form_ids <->
  id = "age"%string \/ id = "gender"%string \/ id = "symptoms"%string
  \/ id = "blood_pressure"%string \/ id = "heart_rate"%string
  \/ id = "temperature"%string \/ id = "pre_existing_conditions"%string.
Proof.
  unfold form_ids. rewrite !elem_of_cons, elem_of_nil. tauto.
Qed.

Lemma lookup_update_if id v w id' :
  dom (update_if id v w) !! id' =
  if decide (id = id') then set_text v <$> dom w !! id else dom w !! id'.
Proof.
  destruct v as [v|]; simpl.
  - apply lookup_update.
  - case_decide as H; [subst id'|reflexivity].
    destruct (dom w !! id); reflexivity.
Qed.

Lemma lookup_update_if_eq id v w :
  dom (update_if id v w) !! id = set_text v <$> dom w !! id.
Proof. rewrite lookup_update_if. case_decide; congruence. Qed.

Lemma lookup_update_if_ne id v w id' :
  id <> id' -> dom (update_if id v w) !! id' = dom w !! id'.
Proof. intros H. rewrite lookup_update_if. case_decide; congruence. Qed.

Lemma alerts_update_if id v w : alerts (update_if id v w) = alerts w.
Proof. destruct v; [apply alerts_update | reflexivity]. Qed.

Lemma requests_update_if id v w : requests (update_if id v w) = requests w.
Proof. destruct v; [apply requests_update | reflexivity]. Qed.

Lemma has_form_update_if id v w : has_form w -> has_form (update_if id v w).
Proof.
  intros Hw id' Hid'. specialize (Hw id' Hid'). rewrite lookup_update_if.
  case_decide as H; [subst id'|assumption].
  destruct Hw as [e ->]. simpl. eauto.
Qed.

(** One step of [fillFormFromPatient]: a write guarded by a test of the
    patient object, on a control that the page has. *)
Lemma guarded_set_value id (v : option jsstring) w :
  is_Some (dom w !! id) ->
  match v with Some t => set_value id t | None => skip end w
  = (Normal tt, update_if id v w).
Proof.
  intros Hid. destruct v as [t|]; simpl; [|reflexivity].
  apply write_present, Hid.
Qed.

Lemma fill_step {B} id (m : M unit) (v : option jsstring) (k : unit -> M B) w :
  m = match v with Some t => set_value id t | None => skip end ->
  id ∈ form_ids -> has_form w ->
  (m ≫= k) w = k tt (update_if id v w).
Proof.
  intros -> Hid Hw. rewrite bind_run, guarded_set_value by (apply Hw, Hid).
  reflexivity.
Qed.

Ltac form_id := apply elem_of_form_ids; tauto.

Lemma fillFormFromPatient_run p w :
  has_form w ->
  fillFormFromPatient (present p) w = (Normal tt, filled p w).
Proof.
  intros Hw. unfold fillFormFromPatient, filled.
  rewrite (fill_step "age" _ (number_text (Patient.age p)));
    [|destruct (Patient.age p); reflexivity | form_id | assumption].
  apply (has_form_update_if "age" (number_text (Patient.age p))) in Hw.
  rewrite (fill_step "gender" _ (string_text (Patient.gender p)));
    [|destruct (Patient.gender p) as [| |[|? ?]]; reflexivity
     | form_id | assumption].
  apply (has_form_update_if "gender" (string_text (Patient.gender p))) in Hw.
  rewrite (fill_step "symptoms" _ (string_text (Patient.symptoms p)));
    [|destruct (Patient.symptoms p) as [| |[|? ?]]; reflexivity
     | form_id | assumption].
  apply (has_form_update_if "symptoms" (string_text (Patient.symptoms p)))
    in Hw.
  rewrite (fill_step "blood_pressure" _ (blood_pressure_text p));
    [|unfold blood_pressure_text;
      destruct (Patient.blood_pressure_systolic p),
               (Patient.blood_pressure_diastolic p); reflexivity
     | form_id | assumption].
  apply (has_form_update_if "blood_pressure" (blood_pressure_text p)) in Hw.
  rewrite (fill_step "heart_rate" _ (number_text (Patient.heart_rate p)));
    [|destruct (Patient.heart_rate p); reflexivity | form_id | assumption].
  apply (has_form_update_if "heart_rate" (number_text (Patient.heart_rate p)))
    in Hw.
  rewrite (fill_step "temperature" _ (number_text (Patient.temperature p)));
    [|destruct (Patient.temperature p); reflexivity | form_id | assumption].
  apply (has_form_update_if "temperature"
           (number_text (Patient.temperature p))) in Hw.
  rewrite <- (guarded_set_value "pre_existing_conditions" (conditions_text p))
    by (apply Hw; form_id).
  unfold conditions_text.
  destruct (Patient.pre_existing_conditions p) as [| |[|? ?]]; reflexivity.
Qed.

Ltac lookup_filled :=
  unfold filled;
  repeat (rewrite lookup_update_if_eq
          || rewrite lookup_update_if_ne by congruence).

Lemma lookup_filled_other p w id :
  id ∉ form_ids -> dom (filled p w) !! id = dom w !! id.
Proof.
  intros Hid. rewrite elem_of_form_ids in Hid.
  unfold filled. rewrite !lookup_update_if_ne; [reflexivity|..];
    intros <-; tauto.
Qed.

Lemma lookup_filled_age p w :
  dom (filled p w) !! "age"
  = set_text (number_text (Patient.age p)) <$> dom w !! "age".
Proof. lookup_filled. reflexivity. Qed.

Lemma lookup_filled_gender p w :
  dom (filled p w) !! "gender"
  = set_text (string_text (Patient.gender p)) <$> dom w !! "gender".
Proof. lookup_filled. reflexivity. Qed.

Lemma lookup_filled_symptoms p w :
  dom (filled p w) !! "symptoms"
  = set_text (string_text (Patient.symptoms p)) <$> dom w !! "symptoms".
Proof. lookup_filled. reflexivity. Qed.

Lemma lookup_filled_blood_pressure p w :
  dom (filled p w) !! "blood_pressure"
  = set_text (blood_pressure_text p) <$> dom w !! "blood_pressure".
Proof. lookup_filled. reflexivity. Qed.

Lemma lookup_filled_heart_rate p w :
  dom (filled p w) !! "heart_rate"
  = set_text (number_text (Patient.heart_rate p)) <$> dom w !! "heart_rate".
Proof. lookup_filled. reflexivity. Qed.

Lemma lookup_filled_temperature p w :
  dom (filled p w) !! "temperature"
  = set_text (number_text (Patient.temperature p)) <$> dom w !! "temperature".
Proof. lookup_filled. reflexivity. Qed.

Lemma lookup_filled_conditions p w :
  dom (filled p w) !! "pre_existing_conditions"
  = set_text (conditions_text p) <$> dom w !! "pre_existing_conditions".
Proof. lookup_filled. reflexivity. Qed.

Lemma alerts_filled p w : alerts (filled p w) = alerts w.
Proof. unfold filled. rewrite !alerts_update_if. reflexivity. Qed.

Lemma requests_filled p w : requests (filled p w) = requests w.
Proof. unfold filled. rewrite !requests_update_if. reflexivity. Qed.

Lemma value_of_set_text (v : option jsstring) (o : option element) :
  value <$> (set_text v <$> o) =
  match v with Some t => (fun _ => t) <$> o | None => value <$> o end.
Proof. destruct v, o; reflexivity. Qed.

Lemma has_form_value w id :
  has_form w -> id ∈ form_ids -> exists e, dom w !! id = Some e.
Proof. intros Hw Hid. destruct (Hw id Hid) as [e He]. eauto. Qed.

(** C5.  On a page that has the seven controls of the form,
    [fillFormFromPatient] completes normally and: each control whose patient
    field is present receives it (a number in its decimal form, a non-empty
    string as it is, a non-empty list joined with ", "); a control whose
    patient field is absent (or null) keeps its content; the blood-pressure
    control receives "systolic/diastolic" when both components are present,
    the systolic value alone when only that one is present, and keeps its
    content otherwise; no other element changes, no notice is shown and no
    call is made. *)
Theorem fill_form_partial_additive p w :
  has_form w ->
  let '(c, w') := fillFormFromPatient (present p) w in
  c = Normal tt /\
  (forall a, Patient.age p = present a ->
     value_of w' "age" = Some (Number.toString a)) /\
  (forall c0 s, Patient.gender p = present (c0 :: s) ->
     value_of w' "gender" = Some (c0 :: s)) /\
  (forall c0 s, Patient.symptoms p = present (c0 :: s) ->
     value_of w' "symptoms" = Some (c0 :: s)) /\
  (forall h, Patient.heart_rate p = present h ->
     value_of w' "heart_rate" = Some (Number.toString h)) /\
  (forall t, Patient.temperature p = present t ->
     value_of w' "temperature" = Some (Number.toString t)) /\
  (forall c0 cs, Patient.pre_existing_conditions p = present (c0 :: cs) ->
     value_of w' "pre_existing_conditions"
     = Some (join (lit ", ") (c0 :: cs))) /\
  (is_nullish (Patient.age p) = true ->
   value_of w' "age" = value_of w "age") /\
  (is_nullish (Patient.gender p) = true ->
   value_of w' "gender" = value_of w "gender") /\
  (is_nullish (Patient.symptoms p) = true ->
   value_of w' "symptoms" = value_of w "symptoms") /\
  (is_nullish (Patient.heart_rate p) = true ->
   value_of w' "heart_rate" = value_of w "heart_rate") /\
  (is_nullish (Patient.temperature p) = true ->
   value_of w' "temperature" = value_of w "temperature") /\
  (is_nullish (Patient.pre_existing_conditions p) = true ->
   value_of w' "pre_existing_conditions"
   = value_of w "pre_existing_conditions") /\
  (forall s d,
     Patient.blood_pressure_systolic p = present s ->
     Patient.blood_pressure_diastolic p = present d ->
     value_of w' "blood_pressure"
     = Some (Number.toString s ++ lit "/" ++ Number.toString d)) /\
  (forall s,
     Patient.blood_pressure_systolic p = present s ->
     is_nullish (Patient.blood_pressure_diastolic p) = true ->
     value_of w' "blood_pressure" = Some (Number.toString s)) /\
  (is_nullish (Patient.blood_pressure_systolic p) = true ->
   value_of w' "blood_pressure" = value_of w "blood_pressure") /\
  (forall id, id ∉ form_ids -> dom w' !! id = dom w !! id) /\
  alerts w' = alerts w /\ requests w' = requests w.
Proof.
  intros Hw. rewrite (fillFormFromPatient_run p w Hw).
  destruct (has_form_value w "age" Hw ltac:(form_id)) as [e1 H1].
  destruct (has_form_value w "gender" Hw ltac:(form_id)) as [e2 H2].
  destruct (has_form_value w "symptoms" Hw ltac:(form_id)) as [e3 H3].
  destruct (has_form_value w "blood_pressure" Hw ltac:(form_id)) as [bp Hbp].
  destruct (has_form_value w "heart_rate" Hw ltac:(form_id)) as [e5 H5].
  destruct (has_form_value w "temperature" Hw ltac:(form_id)) as [e6 H6].
  destruct (has_form_value w "pre_existing_conditions" Hw ltac:(form_id))
    as [e7 H7].
  unfold value_of.
  rewrite lookup_filled_age, lookup_filled_gender, lookup_filled_symptoms,
    lookup_filled_blood_pressure, lookup_filled_heart_rate,
    lookup_filled_temperature, lookup_filled_conditions.
  rewrite !value_of_set_text, H1, H2, H3, Hbp, H5, H6, H7.
  split; [reflexivity|].
  split; [intros a ->; reflexivity|].
  split; [intros c0 s ->; reflexivity|].
  split; [intros c0 s ->; reflexivity|].
  split; [intros h ->; reflexivity|].
  split; [intros t ->; reflexivity|].
  split; [unfold conditions_text; intros c0 cs ->; reflexivity|].
  split; [destruct (Patient.age p); simpl; congruence|].
  split; [destruct (Patient.gender p); simpl; congruence|].
  split; [destruct (Patient.symptoms p); simpl; congruence|].
  split; [destruct (Patient.heart_rate p); simpl; congruence|].
  split; [destruct (Patient.temperature p); simpl; congruence|].
  split; [unfold conditions_text;
          destruct (Patient.pre_existing_conditions p); simpl; congruence|].
  unfold blood_pressure_text.
  split; [intros s d -> ->; reflexivity|].
  split; [intros s ->;
          destruct (Patient.blood_pressure_diastolic p); simpl; congruence|].
  split; [destruct (Patient.blood_pressure_systolic p); simpl; congruence|].
  split; [intros id Hid; apply lookup_filled_other, Hid|].
  split; [apply alerts_filled | apply requests_filled].
Qed.

Lemma has_form_begun : has_form begun_form.
Proof.
  intros id Hid. apply elem_of_form_ids in Hid.
  destruct Hid as [->|[->|[->|[->|[->|[->| ->]]]]]];
    vm_compute; eauto.
Qed.

Lemma fill_form_partial_additive_witness :
  let w' := (fillFormFromPatient (present scenario4) begun_form).2 in
  value_of w' "age" = Some (lit "52") /\
  value_of w' "blood_pressure" = Some (lit "130/85") /\
  value_of w' "symptoms" = value_of begun_form "symptoms" /\
  value_of w' "gender" = value_of begun_form "gender".
Proof.
  pose proof (fill_form_partial_additive scenario4 begun_form has_form_begun)
    as H.
  destruct (fillFormFromPatient (present scenario4) begun_form) as [c w'].
  destruct H as (_ & Ha & _ & _ & _ & _ & _ & _ & Hg & Hs & _ & _ & _
                 & Hbp & _). simpl.
  split; [|split; [|split]].
  - rewrite (Ha 52%float eq_refl). vm_compute. reflexivity.
  - rewrite (Hbp 130%float 85%float eq_refl eq_refl). vm_compute. reflexivity.
  - apply Hs. reflexivity.
  - apply Hg. reflexivity.
Defined.

(** C10.  [fillFormFromPatient] tests the strings and the list for truth and
    the numbers against [null]: an empty gender, empty symptoms or an empty
    list of conditions leaves the control as it was, while an age, a heart
    rate, a temperature or blood-pressure components of zero are written,
    as "0" (and "0/0"). *)
Theorem fill_form_empty_values p w :
  has_form w ->
  let '(c, w') := fillFormFromPatient (present p) w in
  (Patient.gender p = present [] ->
   value_of w' "gender" = value_of w "gender") /\
  (Patient.symptoms p = present [] ->
   value_of w' "symptoms" = value_of w "symptoms") /\
  (Patient.pre_existing_conditions p = present [] ->
   value_of w' "pre_existing_conditions"
   = value_of w "pre_existing_conditions") /\
  (Patient.age p = present 0%float -> value_of w' "age" = Some (lit "0")) /\
  (Patient.heart_rate p = present 0%float ->
   value_of w' "heart_rate" = Some (lit "0")) /\
  (Patient.temperature p = present 0%float ->
   value_of w' "temperature" = Some (lit "0")) /\
  (Patient.blood_pressure_systolic p = present 0%float ->
   Patient.blood_pressure_diastolic p = present 0%float ->
   value_of w' "blood_pressure" = Some (lit "0/0")) /\
  (Patient.blood_pressure_systolic p = present 0%float ->
   is_nullish (Patient.blood_pressure_diastolic p) = true ->
   value_of w' "blood_pressure" = Some (lit "0")).
Proof.
  intros Hw. rewrite (fillFormFromPatient_run p w Hw).
  destruct (has_form_value w "age" Hw ltac:(form_id)) as [e1 H1].
  destruct (has_form_value w "blood_pressure" Hw ltac:(form_id)) as [e2 H2].
  destruct (has_form_value w "heart_rate" Hw ltac:(form_id)) as [e3 H3].
  destruct (has_form_value w "temperature" Hw ltac:(form_id)) as [e4 H4].
  unfold value_of.
  rewrite lookup_filled_age, lookup_filled_gender, lookup_filled_symptoms,
    lookup_filled_blood_pressure, lookup_filled_heart_rate,
    lookup_filled_temperature, lookup_filled_conditions.
  rewrite !value_of_set_text, H1, H2, H3, H4.
  split; [intros ->; reflexivity|].
  split; [intros ->; reflexivity|].
  split; [unfold conditions_text; intros ->; reflexivity|].
  split; [intros ->; simpl; rewrite toString_zero; reflexivity|].
  split; [intros ->; simpl; rewrite toString_zero; reflexivity|].
  split; [intros ->; simpl; rewrite toString_zero; reflexivity|].
  unfold blood_pressure_text.
  split; [intros -> ->; simpl; rewrite toString_zero; reflexivity|].
  intros -> Hd.
  destruct (Patient.blood_pressure_diastolic p); try discriminate Hd;
    cbv iota; rewrite toString_zero; reflexivity.
Qed.

Lemma fill_form_empty_values_witness :
  let w' := (fillFormFromPatient (present empty_values) begun_form).2 in
  value_of w' "gender" = Some (lit "Female") /\
  value_of w' "age" = Some (lit "0") /\
  value_of w' "blood_pressure" = Some (lit "0/0").
Proof.
  pose proof (fill_form_empty_values empty_values begun_form has_form_begun)
    as H.
  destruct (fillFormFromPatient (present empty_values) begun_form) as [c w'].
  destruct H as (Hg & _ & _ & Ha & _ & _ & Hbp & _). simpl.
  split; [|split].
  - rewrite (Hg eq_refl). vm_compute. reflexivity.
  - apply Ha. reflexivity.
  - apply Hbp; reflexivity.
Defined.

(** ** Triage submission *)

Section Submission.

Variable parseInt10 : jsstring -> float.
Variable parseFloat : jsstring -> float.

Lemma on_submit_run w s :
  has_form w -> value_of w "symptoms" = Some s ->
  exists payload,
    Payload.symptoms payload = trim s /\
    on_submit parseInt10 parseFloat w =
    (if negb (nonempty (trim s)) then alert (lit "Please enter symptoms.")
     else
       set_disabled "btn-submit" true;;
       set_textContent "btn-submit" analyzing_label;;
       fetch (API.triage_request payload)) w.
Proof.
  intros Hw Hs.
  destruct (has_form_value w "age" Hw ltac:(form_id)) as [e1 H1].
  destruct (has_form_value w "gender" Hw ltac:(form_id)) as [e2 H2].
  destruct (has_form_value w "symptoms" Hw ltac:(form_id)) as [e3 H3].
  destruct (has_form_value w "blood_pressure" Hw ltac:(form_id)) as [e4 H4].
  destruct (has_form_value w "heart_rate" Hw ltac:(form_id)) as [e5 H5].
  destruct (has_form_value w "temperature" Hw ltac:(form_id)) as [e6 H6].
  destruct (has_form_value w "pre_existing_conditions" Hw ltac:(form_id))
    as [e7 H7].
  unfold value_of in Hs. rewrite H3 in Hs. injection Hs as <-.
  eexists (payload_of parseInt10 parseFloat _ _ _ _ _ _ _).
  split; [reflexivity|].
  unfold on_submit.
  rewrite bind_run, (read_present _ _ _ _ H1).
  rewrite bind_run, (read_present _ _ _ _ H2).
  rewrite bind_run, (read_present _ _ _ _ H3).
  rewrite bind_run, (read_present _ _ _ _ H4).
  rewrite bind_run, (read_present _ _ _ _ H5).
  rewrite bind_run, (read_present _ _ _ _ H6).
  rewrite bind_run, (read_present _ _ _ _ H7).
  reflexivity.
Qed.

Lemma submitting_run w payload btn :
  dom w !! "btn-submit" = Some btn ->
  (set_disabled "btn-submit" true;;
   set_textContent "btn-submit" analyzing_label;;
   fetch (API.triage_request payload)) w
  = (Normal tt,
     {| dom := <["btn-submit" :=
                 with_textContent analyzing_label (with_disabled true btn)]>
               (dom w);
        alerts := alerts w;
        requests := requests w ++ [API.triage_request payload] |}).
Proof.
  intros Hb. unfold set_disabled, set_textContent.
  rewrite bind_run, write_present by (rewrite Hb; eauto).
  rewrite bind_run, write_present
    by (rewrite lookup_update_eq, Hb; simpl; eauto).
  unfold fetch, update. rewrite Hb. simpl. rewrite lookup_insert_eq. simpl.
  rewrite insert_insert_eq. reflexivity.
Qed.

(** C7.  On a page that has the form: when the symptoms are empty after
    trimming, the handler shows the notice "Please enter symptoms." and
    does nothing else: the document is unchanged and no call is made;
    when they are not (and the page has the submit button), it issues
    exactly one call, the triage request carrying the trimmed symptoms,
    and shows no notice. *)
Theorem submit_validation w s :
  has_form w -> value_of w "symptoms" = Some s ->
  let '(c, w') := on_submit parseInt10 parseFloat w in
  if nonempty (trim s) then
    is_Some (dom w !! "btn-submit") ->
    c = Normal tt /\ alerts w' = alerts w /\
    exists payload,
      Payload.symptoms payload = trim s /\
      requests w' = requests w ++ [API.triage_request payload]
  else
    c = Normal tt /\ dom w' = dom w /\ requests w' = requests w /\
    alerts w' = alerts w ++ [lit "Please enter symptoms."].
Proof.
  intros Hw Hs. destruct (on_submit_run w s Hw Hs) as (payload & Hp & ->).
  destruct (nonempty (trim s)); unfold negb; cbv iota.
  - destruct (dom w !! "btn-submit") as [btn|] eqn:Hb.
    + rewrite (submitting_run w payload btn Hb). intros _.
      split; [reflexivity|]. split; [reflexivity|]. exists payload.
      split; [exact Hp | reflexivity].
    + match goal with |- context [?m w] => destruct (m w) as [c w'] end.
      intros [e He]. discriminate He.
  - repeat split.
Qed.

(** However the triage call settles, and however the handlers of the
    settlement complete, the submit button ends enabled with the idle
    label. *)
Lemma triage_settled_restores_button net w btn :
  dom w !! "btn-submit" = Some btn ->
  dom (on_triage_settled net w).2 !! "btn-submit"
  = Some (with_innerHTML idle_label (with_disabled false btn)).
Proof.
  intros Hb. unfold on_triage_settled, finally_.
  set (inner := catch_ _ _).
  assert (Hin : untouched "btn-submit" inner).
  { subst inner. unfold on_triage_data, on_triage_failed,
      loadDashboardSummary, set_innerHTML, classList_remove.
    frame. }
  specialize (Hin w). destruct (inner w) as [c w1]. simpl in Hin.
  rewrite Hb in Hin.
  unfold restore_submit, set_disabled, set_innerHTML.
  rewrite bind_run, write_present by (rewrite Hin; eauto).
  rewrite write_present by (rewrite lookup_update_eq, Hin; simpl; eauto).
  simpl. rewrite !lookup_update_eq, Hin. reflexivity.
Qed.

(** C3.  A submission with symptoms disables the submit button and gives
    it the in-progress label; when the call settles, to whatever outcome,
    the button is enabled again and carries the idle label, so that a
    button that was enabled and carried that label before the submission
    is exactly as it was. *)
Theorem submit_button_restored w s btn net :
  has_form w -> value_of w "symptoms" = Some s ->
  nonempty (trim s) = true ->
  dom w !! "btn-submit" = Some btn ->
  let w1 := (on_submit parseInt10 parseFloat w).2 in
  let w2 := (on_triage_settled net w1).2 in
  dom w1 !! "btn-submit"
  = Some (with_innerHTML analyzing_label (with_disabled true btn)) /\
  dom w2 !! "btn-submit"
  = Some (with_innerHTML idle_label (with_disabled false btn)) /\
  (disabled btn = false -> innerHTML btn = idle_label ->
   dom w2 !! "btn-submit" = Some btn).
Proof.
  intros Hw Hs Hne Hb.
  destruct (on_submit_run w s Hw Hs) as (payload & Hp & Hrun).
  rewrite Hrun, Hne. unfold negb. cbv iota.
  rewrite (submitting_run w payload btn Hb). cbv zeta. simpl snd.
  set (w1 := Build_world _ _ _).
  assert (H1 : dom w1 !! "btn-submit"
               = Some (with_textContent analyzing_label
                         (with_disabled true btn))).
  { subst w1. simpl. apply lookup_insert_eq. }
  pose proof (triage_settled_restores_button net w1 _ H1) as H2.
  split; [exact H1|]. split; [exact H2|].
  intros Hd Hl. rewrite H2. f_equal. destruct btn; simpl in *.
  subst. reflexivity.
Qed.

End Submission.

Lemma trim_sample : trim (lit "  chest pain ") = lit "chest pain".
Proof. vm_compute. reflexivity. Qed.

Lemma submit_validation_witness :
  let w' := (on_submit parse_nan parse_nan begun_form).2 in
  alerts w' = [] /\
  exists payload,
    Payload.symptoms payload = lit "chest pain" /\
    requests w' = [API.triage_request payload].
Proof.
  pose proof (submit_validation parse_nan parse_nan begun_form
                (lit "  chest pain ") has_form_begun) as H.
  destruct (on_submit parse_nan parse_nan begun_form) as [c w'].
  rewrite trim_sample in H.
  change (nonempty (lit "chest pain")) with true in H. cbv iota in H.
  destruct H as (_ & Ha & payload & Hp & Hr).
  - vm_compute. reflexivity.
  - vm_compute. eauto.
  - simpl. split; [exact Ha|]. exists payload. split; [exact Hp | exact Hr].
Defined.

Lemma submit_button_restored_witness :
  let w1 := (on_submit parse_nan parse_nan begun_form).2 in
  let w2 := (on_triage_settled (Throw failed_to_fetch) w1).2 in
  dom w2 !! "btn-submit" = dom begun_form !! "btn-submit".
Proof.
  pose proof (submit_button_restored parse_nan parse_nan begun_form
                (lit "  chest pain ")
                (with_innerHTML idle_label createElement)
                (Throw failed_to_fetch) has_form_begun) as H.
  cbv zeta in *.
  destruct H as (_ & _ & H).
  - vm_compute. reflexivity.
  - vm_compute. reflexivity.
  - vm_compute. reflexivity.
  - rewrite H by reflexivity. vm_compute. reflexivity.
Defined.

(** * Further properties *)

(** ** Escaping loses nothing *)

Lemma unescape_other_unit f c r :
  c <> 38%N -> unescape_fuel (S f) (c :: r) = c :: unescape_fuel f r.
Proof.
  intros Hc. destruct c as [|p]; [reflexivity|].
  do 6 (try (destruct p as [p|p|]; try reflexivity)).
  congruence.
Qed.

Lemma length_escape_unit c : (1 <= length (escape_unit c))%nat.
Proof.
  unfold escape_unit. repeat case_match; simpl; lia.
Qed.

Lemma unescape_escape_fuel s : forall fuel,
  (length s <= fuel)%nat -> unescape_fuel fuel (escape_text s) = s.
Proof.
  unfold escape_text. induction s as [|c s IH]; intros fuel Hf.
  - destruct fuel; reflexivity.
  - destruct fuel as [|fuel]; [simpl in Hf; lia|].
    simpl in Hf. assert (Hs : (length s <= fuel)%nat) by lia.
    specialize (IH fuel Hs). simpl concat.
    unfold escape_unit at 1.
    destruct (c =? 38)%N eqn:H38.
    { apply N.eqb_eq in H38. subst c. simpl. rewrite IH. reflexivity. }
    destruct (c =? 160)%N eqn:H160.
    { apply N.eqb_eq in H160. subst c. simpl. rewrite IH. reflexivity. }
    destruct (c =? 60)%N eqn:H60.
    { apply N.eqb_eq in H60. subst c. simpl. rewrite IH. reflexivity. }
    destruct (c =? 62)%N eqn:H62.
    { apply N.eqb_eq in H62. subst c. simpl. rewrite IH. reflexivity. }
    apply N.eqb_neq in H38. simpl app.
    rewrite unescape_other_unit by assumption. rewrite IH. reflexivity.
Qed.

Lemma length_escape_text s : (length s <= length (escape_text s))%nat.
Proof.
  unfold escape_text. induction s as [|c s IH]; simpl; [lia|].
  rewrite length_app. pose proof (length_escape_unit c). lia.
Qed.

(** X1.  Reading the character references of [escapeHtml s] back gives [s]:
    escaping loses no text, so that different texts never escape to the same
    markup. *)
Theorem escapeHtml_round_trip s : unescape (escapeHtml (present s)) = s.
Proof.
  unfold unescape, escapeHtml. simpl.
  apply unescape_escape_fuel, length_escape_text.
Qed.

(** ** Angle brackets of the markup *)

Lemma brackets_app a b : brackets (a ++ b) = (brackets a + brackets b)%nat.
Proof. unfold brackets. rewrite !count_occ_app. lia. Qed.

Lemma brackets_nil : brackets [] = 0%nat.
Proof. reflexivity. Qed.

Lemma brackets_escape_text s : brackets (escape_text s) = 0%nat.
Proof.
  unfold escape_text. induction s as [|c s IH]; [reflexivity|].
  simpl concat. rewrite brackets_app, IH. unfold escape_unit.
  destruct (c =? 38)%N eqn:H38; [reflexivity|].
  destruct (c =? 160)%N eqn:H160; [reflexivity|].
  destruct (c =? 60)%N eqn:H60; [reflexivity|].
  destruct (c =? 62)%N eqn:H62; [reflexivity|].
  apply N.eqb_neq in H60, H62. unfold brackets. simpl.
  destruct (N.eq_dec c 60%N), (N.eq_dec c 62%N); try congruence; reflexivity.
Qed.

Lemma brackets_escapeHtml v : brackets (escapeHtml v) = 0%nat.
Proof.
  destruct v as [| |s]; try reflexivity. apply brackets_escape_text.
Qed.

Lemma brackets_units (P : N -> Prop) s :
  Forall P s -> ~ P 60%N -> ~ P 62%N -> brackets s = 0%nat.
Proof.
  intros Hs H60 H62. unfold brackets.
  induction Hs as [|c s Hc Hs IH]; [reflexivity|]. simpl.
  destruct (N.eq_dec c 60%N), (N.eq_dec c 62%N); try (subst; tauto).
Qed.

Lemma number_unit_digit n : number_unit (Z.to_N (48 + n mod 10)).
Proof.
  left. pose proof (Z.mod_pos_bound n 10 ltac:(lia)). lia.
Qed.

Lemma number_units_lit (s : string) :
  forallb (fun c => bool_decide (number_unit c)) (lit s) = true ->
  Forall number_unit (lit s).
Proof.
  intros H. apply Forall_forall. intros c Hc.
  rewrite forallb_forall in H. apply list_elem_of_In in Hc.
  specialize (H c Hc). apply bool_decide_eq_true in H. exact H.
Qed.

Lemma number_units_digits fuel : forall n acc,
  Forall number_unit acc -> Forall number_unit (Number.digits_fuel fuel n acc).
Proof.
  induction fuel as [|fuel IH]; intros n acc Hacc; simpl; [exact Hacc|].
  assert (Hacc' : Forall number_unit (Z.to_N (48 + n mod 10) :: acc))
    by (constructor; [apply number_unit_digit | exact Hacc]).
  destruct (n <? 10); [exact Hacc' | apply IH, Hacc'].
Qed.

Lemma number_units_decimal n : Forall number_unit (Number.decimal n).
Proof. apply number_units_digits. constructor. Qed.

Lemma number_units_sign_and_decimal n :
  Forall number_unit (Number.sign_and_decimal n).
Proof.
  unfold Number.sign_and_decimal. apply Forall_app. split.
  - destruct (n <? 0); apply number_units_lit; reflexivity.
  - apply number_units_decimal.
Qed.

Lemma number_units_layout ds n :
  Forall number_unit ds -> Forall number_unit (Number.layout ds n).
Proof.
  intros Hds. unfold Number.layout.
  assert (H0 : number_unit 48%N) by (left; lia).
  repeat case_match;
    repeat first
      [ assumption
      | apply number_units_sign_and_decimal
      | apply Forall_replicate; assumption
      | apply Forall_take; assumption
      | apply Forall_drop; assumption
      | apply number_units_lit; reflexivity
      | apply Forall_app; split ].
Qed.

Lemma number_units_finite m e :
  Forall number_unit (Number.finite_toString m e).
Proof.
  unfold Number.finite_toString.
  destruct (Number.shortest_fuel 16 m e (Number.magnitude m e) 1) as [s b].
  destruct (Number.strip_zeros 400 s b) as [s' b'].
  apply number_units_layout, number_units_decimal.
Qed.

(** The decimal form of a number is made of digits, signs, a point and the
    letters of the exponent, [Infinity] and [NaN]. *)
Lemma number_units_toString x : Forall number_unit (Number.toString x).
Proof.
  unfold Number.toString.
  destruct (Prim2SF x) as [s|s| |s m e].
  - apply number_units_lit. reflexivity.
  - apply Forall_app. split.
    + destruct s; [apply number_units_lit; reflexivity | constructor].
    + apply number_units_lit. reflexivity.
  - apply number_units_lit. reflexivity.
  - apply Forall_app. split.
    + destruct s; [apply number_units_lit; reflexivity | constructor].
    + apply number_units_finite.
Qed.

Lemma brackets_toString x : brackets (Number.toString x) = 0%nat.
Proof.
  apply (brackets_units number_unit); [apply number_units_toString|..].
  - apply (bool_decide_eq_false_1 (number_unit 60%N)). reflexivity.
  - apply (bool_decide_eq_false_1 (number_unit 62%N)). reflexivity.
Qed.

Lemma brackets_riskValueClass level : brackets (riskValueClass level) = 0%nat.
Proof. unfold riskValueClass. repeat case_match; reflexivity. Qed.

Lemma brackets_riskBadgeClass level : brackets (riskBadgeClass level) = 0%nat.
Proof. unfold riskBadgeClass. repeat case_match; reflexivity. Qed.

Lemma brackets_impactClass v : brackets (impactClass v) = 0%nat.
Proof. unfold impactClass. repeat case_match; reflexivity. Qed.

Lemma brackets_join sep l :
  brackets sep = 0%nat -> Forall (fun s => brackets s = 0%nat) l ->
  brackets (join sep l) = 0%nat.
Proof.
  intros Hsep Hl. induction Hl as [|x l Hx Hl IH]; [reflexivity|].
  destruct l as [|y l]; [exact Hx|].
  change (join sep (x :: y :: l)) with (x ++ sep ++ join sep (y :: l)).
  rewrite !brackets_app, Hx, Hsep, IH. reflexivity.
Qed.

Lemma brackets_concat_map {A} (f : A -> jsstring) n l :
  (forall a, brackets (f a) = n) ->
  brackets (concat (map f l)) = (n * length l)%nat.
Proof.
  intros Hf. induction l as [|a l IH].
  - simpl. rewrite Nat.mul_0_r. reflexivity.
  - simpl concat. simpl length. rewrite brackets_app, Hf, IH. lia.
Qed.

Ltac brackets :=
  rewrite ?app_nil_l, ?brackets_app;
  rewrite ?brackets_escapeHtml, ?brackets_toString, ?brackets_riskValueClass,
    ?brackets_riskBadgeClass, ?brackets_impactClass;
  repeat match goal with
         | |- context [brackets (lit ?s)] =>
             let n := eval vm_compute in (brackets (lit s)) in
             change (brackets (lit s)) with n
         end.

(** X2.  The markup of the result panel has the angle brackets of its
    template and no other: 36, and 4 more for the alternatives line and for
    the summary paragraph when these are shown, whatever the texts and the
    score of the result. *)
Theorem renderTriageResult_brackets data :
  brackets (renderTriageResult data) =
  (36
   + match obj_or (TriageResult.alternative_departments data) [] with
     | [] => 0 | _ :: _ => 4
     end
   + match str_or (TriageResult.summary data) [] with
     | [] => 0 | _ :: _ => 4
     end)%nat.
Proof.
  unfold renderTriageResult. cbv zeta.
  destruct (obj_or (TriageResult.alternative_departments data) [])
    as [|a alt] eqn:Halt;
    destruct (str_or (TriageResult.summary data) []) as [|c summary];
    brackets; rewrite ?brackets_join; try reflexivity;
    try (apply Forall_forall; intros s Hs; apply list_elem_of_In, in_map_iff in Hs;
         destruct Hs as (x & <- & _); apply brackets_escapeHtml).
Qed.

Lemma brackets_recent_confidence r : brackets (recent_confidence r) = 0%nat.
Proof.
  unfold recent_confidence. repeat case_match; try reflexivity. brackets.
  reflexivity.
Qed.

(** X3.  Every entry of the recent feed and every department bar has the
    angle brackets of its template only: 28 per recent entry, 20 per bar and
    4 for the "No data yet." placeholder. *)
Theorem dashboard_markup_brackets data rs :
  brackets (recent_feed rs) = (28 * length rs)%nat /\
  brackets (dept_bars data) =
  match obj_or (DashboardSummary.by_department data) [] with
  | [] => 4%nat
  | entries => (20 * length entries)%nat
  end.
Proof.
  split.
  - unfold recent_feed. rewrite join_empty_concat.
    apply brackets_concat_map. intros r. unfold recent_item. cbv zeta.
    brackets. rewrite brackets_recent_confidence. reflexivity.
  - unfold dept_bars.
    destruct (obj_or (DashboardSummary.by_department data) []) as [|x l] eqn:H;
      [reflexivity|].
    rewrite join_empty_concat. apply brackets_concat_map.
    intros [dept count]. unfold dept_item. brackets. reflexivity.
Qed.

Lemma fold_left_items (fs : list ExplainFactor) html :
  fold_left (fun html f => html ++ explain_item f) fs html
  = html ++ concat (map explain_item fs).
Proof.
  revert html. induction fs as [|f fs IH]; intros html; simpl.
  - symmetry. apply app_nil_r.
  - rewrite IH, <- app_assoc. reflexivity.
Qed.

Lemma renderExplainability_nonempty f fs :
  renderExplainability (present (f :: fs)) =
  lit "<ul class='explain-list'>" ++ concat (map explain_item (f :: fs))
  ++ lit "</ul>".
Proof.
  unfold renderExplainability. rewrite fold_left_items, <- app_assoc.
  reflexivity.
Qed.

(** X4.  The explainability list is the fixed "No factors returned."
    paragraph when the factors are absent, null or empty, and otherwise one
    list item per factor, in order, between the tags of the list. *)
Theorem renderExplainability_items factors :
  renderExplainability factors =
  match factors with
  | present (f :: fs) =>
      lit "<ul class='explain-list'>" ++ concat (map explain_item (f :: fs))
      ++ lit "</ul>"
  | _ =>
      lit "<p style='font-size:0.875rem;color:var(--color-text-muted)'>No factors returned.</p>"
  end.
Proof.
  destruct factors as [| |[|f fs]]; try reflexivity.
  apply renderExplainability_nonempty.
Qed.

Lemma brackets_explain_item f :
  brackets (explain_item f) = (16 + brackets (to_string (impact f)))%nat.
Proof. unfold explain_item. brackets. lia. Qed.

(** X5.  The only angle brackets of the explainability list that do not
    come from its template are those of the impact labels: the list has 4
    brackets, 16 more per factor, and those of each impact label as the
    service sent it. *)
Theorem renderExplainability_brackets f fs :
  brackets (renderExplainability (present (f :: fs))) =
  (4 + 16 * length (f :: fs)
   + sum_list_with (fun f => brackets (to_string (impact f))) (f :: fs))%nat.
Proof.
  rewrite renderExplainability_nonempty.
  assert (H : forall l,
    brackets (concat (map explain_item l)) =
    (16 * length l
     + sum_list_with (fun f => brackets (to_string (impact f))) l)%nat).
  { induction l as [|x l IH]; [reflexivity|].
    change (concat (map explain_item (x :: l)))
      with (explain_item x ++ concat (map explain_item l)).
    simpl sum_list_with. simpl length.
    rewrite brackets_app, brackets_explain_item, IH. lia. }
  brackets. rewrite H. lia.
Qed.

(** ** Formatter and defaults *)

(** X6.  Every risk level other than the strings "High" and "Medium"
    (absent, null, "Low", another spelling) gets the low badge and the low
    value class, and every impact other than "high" and "medium" the low
    impact class. *)
Theorem formatter_fallback level :
  (level <> present (lit "High") -> level <> present (lit "Medium") ->
   riskBadgeClass level = lit "badge-low" /\
   riskValueClass level = lit "risk-low") /\
  (level <> present (lit "high") -> level <> present (lit "medium") ->
   impactClass level = lit "low").
Proof.
  unfold riskBadgeClass, riskValueClass, impactClass, strict_eq.
  split; intros H1 H2; destruct level as [| |s];
    try (repeat split; reflexivity);
    repeat case_bool_decide; subst; try congruence; repeat split.
Qed.

Lemma formatter_fallback_witness :
  riskBadgeClass (present (lit "high")) = lit "badge-low" /\
  riskValueClass (present (lit "high")) = lit "risk-low".
Proof.
  apply (proj1 (formatter_fallback (present (lit "high"))));
    intros H; cbv in H; congruence.
Defined.

Lemma str_or_default v (d : jsstring) :
  nonempty d = true -> str_or (present (str_or v d)) d = str_or v d.
Proof.
  intros Hd. destruct v as [| |[|c s]]; simpl; destruct d;
    try discriminate Hd; reflexivity.
Qed.

Lemma str_or_empty v : str_or (present (str_or v [])) [] = str_or v [].
Proof. destruct v as [| |[|c s]]; reflexivity. Qed.

(** X7.  [renderTriageResult] gives the same markup for a result and for the
    result with the defaults written in: risk level "Low", a score of 0,
    department "General Medicine", no alternatives and an empty summary in
    the place of whatever is absent, null or empty. *)
Theorem renderTriageResult_defaults data :
  renderTriageResult (with_defaults data) = renderTriageResult data.
Proof.
  unfold renderTriageResult, with_defaults.
  cbn [TriageResult.risk_level TriageResult.confidence_score
       TriageResult.recommended_department
       TriageResult.alternative_departments TriageResult.summary obj_or].
  rewrite (str_or_default _ (lit "Low")) by reflexivity.
  rewrite (str_or_default _ (lit "General Medicine")) by reflexivity.
  rewrite str_or_empty.
  destruct (TriageResult.confidence_score data); reflexivity.
Qed.

(** ** More on running handlers *)

Lemma world_eq w1 w2 :
  (forall id, dom w1 !! id = dom w2 !! id) -> alerts w1 = alerts w2 ->
  requests w1 = requests w2 -> w1 = w2.
Proof.
  destruct w1, w2. simpl. intros Hd -> ->. f_equal. apply map_eq, Hd.
Qed.

Lemma is_Some_update id f w id' :
  is_Some (dom (update id f w) !! id') <-> is_Some (dom w !! id').
Proof.
  rewrite lookup_update. case_decide as H; [subst id'|reflexivity].
  rewrite fmap_is_Some. reflexivity.
Qed.

Lemma bind_write_present {B} id f (k : unit -> M B) w :
  is_Some (dom w !! id) -> (write id f ≫= k) w = k tt (update id f w).
Proof. intros H. rewrite bind_run, write_present by exact H. reflexivity. Qed.

Lemma bind_when_present_write {B} id f (k : unit -> M B) w :
  (when_present id (write id f) ≫= k) w = k tt (update id f w).
Proof. rewrite bind_run, when_present_write. reflexivity. Qed.

Lemma summary_received_run net data w :
  API.dashboardSummary net = Normal data ->
  loadDashboardSummary_settled net w = on_summary_data data w.
Proof.
  intros H. unfold loadDashboardSummary_settled, catch_.
  rewrite bind_run. unfold lift. rewrite H, on_summary_data_run. reflexivity.
Qed.

Lemma summary_failed_run net err w :
  API.dashboardSummary net = Throw err ->
  loadDashboardSummary_settled net w =
  (Normal tt, update "recent-triage-list" (with_innerHTML could_not_load) w).
Proof.
  intros H. unfold loadDashboardSummary_settled, catch_.
  rewrite bind_run. unfold lift. rewrite H.
  unfold on_summary_failed, set_innerHTML. apply when_present_write.
Qed.

(** The decimal form of a number needs no escaping. *)
Lemma escape_text_number s : Forall number_unit s -> escape_text s = s.
Proof.
  unfold escape_text. induction 1 as [|c s Hc Hs IH]; [reflexivity|].
  simpl. rewrite IH. unfold escape_unit.
  assert (H : forall k, bool_decide (number_unit k) = false -> (c =? k)%N = false).
  { intros k Hk. apply N.eqb_neq. intros ->.
    apply bool_decide_eq_false in Hk. tauto. }
  rewrite !H by reflexivity. reflexivity.
Qed.

Lemma shown_count_num_or v :
  escape_text (Number.toString (num_or v 0)) = shown_count v.
Proof.
  rewrite escape_text_number by apply number_units_toString.
  destruct v as [| |x]; simpl; try apply toString_zero.
  destruct (Number.truthy x); [reflexivity | apply toString_zero].
Qed.

(** ** The dashboard after a summary is received *)

(** X8.  When a summary is received, each of the three risk counters that
    the page has shows the count of its level, and 0 when [by_risk_level] or
    the key of the level is missing or null, or the count is zero. *)
Theorem risk_counters net data w :
  API.dashboardSummary net = Normal data ->
  let w' := (loadDashboardSummary_settled net w).2 in
  let byRisk := obj_or (DashboardSummary.by_risk_level data) RiskCounts.empty in
  innerHTML <$> dom w' !! "stat-low"
    = (fun _ => shown_count (RiskCounts.Low byRisk)) <$> dom w !! "stat-low" /\
  innerHTML <$> dom w' !! "stat-medium"
    = (fun _ => shown_count (RiskCounts.Medium byRisk))
        <$> dom w !! "stat-medium" /\
  innerHTML <$> dom w' !! "stat-high"
    = (fun _ => shown_count (RiskCounts.High byRisk)) <$> dom w !! "stat-high".
Proof.
  intros Hdata. rewrite (summary_received_run net data w Hdata).
  rewrite on_summary_data_run. cbv zeta. simpl snd.
  set (byRisk := obj_or _ _).
  assert (H : forall w0,
    dom (match DashboardSummary.recent data with
         | present (r :: rs) =>
             update "recent-triage-list"
               (with_innerHTML (recent_feed (r :: rs))) w0
         | _ => w0
         end) = dom (update "recent-triage-list"
                       (match DashboardSummary.recent data with
                        | present (r :: rs) =>
                            with_innerHTML (recent_feed (r :: rs))
                        | _ => fun e => e
                        end) w0)).
  { intros w0. destruct (DashboardSummary.recent data) as [| |[|r rs]];
      try reflexivity; unfold update; destruct (dom w0 !! _) eqn:He;
      try reflexivity; simpl; rewrite insert_id by exact He; reflexivity. }
  rewrite H. clear H.
  repeat split;
    repeat (rewrite lookup_update_eq
            || rewrite lookup_update_ne by discriminate);
    match goal with |- context [dom w !! ?id] => destruct (dom w !! id) end;
    simpl; try reflexivity; rewrite shown_count_num_or; reflexivity.
Qed.

Lemma risk_counters_witness :
  let w' :=
    (loadDashboardSummary_settled
       (Normal {| ok := true; json := Normal scenario5 |}) page_with_feed).2 in
  innerHTML <$> dom w' !! "stat-low" = Some (lit "0") /\
  innerHTML <$> dom w' !! "stat-high" = None.
Proof.
  pose proof (risk_counters
                (Normal {| ok := true; json := Normal scenario5 |})
                scenario5 page_with_feed eq_refl) as H.
  cbv zeta in *. destruct H as (Hl & _ & Hh).
  rewrite Hl, Hh. vm_compute. split; reflexivity.
Defined.

(** X9.  When a summary is received, the recent feed is replaced by the
    entries of [recent], in order, when there is at least one, and is not
    touched when [recent] is missing, null or empty. *)
Theorem recent_feed_replaced net data w :
  API.dashboardSummary net = Normal data ->
  dom (loadDashboardSummary_settled net w).2 !! "recent-triage-list" =
  match DashboardSummary.recent data with
  | present (r :: rs) =>
      with_innerHTML (concat (map recent_item (r :: rs)))
        <$> dom w !! "recent-triage-list"
  | _ => dom w !! "recent-triage-list"
  end.
Proof.
  intros Hdata. rewrite (summary_received_run net data w Hdata).
  rewrite on_summary_data_run. cbv zeta. simpl snd.
  destruct (DashboardSummary.recent data) as [| |[|r rs]];
    repeat (rewrite lookup_update_eq
            || rewrite lookup_update_ne by discriminate);
    try reflexivity.
  unfold recent_feed. rewrite join_empty_concat. reflexivity.
Qed.

Lemma recent_feed_replaced_witness :
  dom (loadDashboardSummary_settled
         (Normal {| ok := true; json := Normal scenario5 |})
         page_with_feed).2 !! "recent-triage-list"
  = dom page_with_feed !! "recent-triage-list".
Proof.
  apply (recent_feed_replaced
           (Normal {| ok := true; json := Normal scenario5 |})
           scenario5 page_with_feed).
  reflexivity.
Defined.

Lemma elem_of_dashboard_ids id :
  id ∈ dashboard_ids <->
  id = "stat-low"%string \/ id = "stat-medium"%string
  \/ id = "stat-high"%string \/ id = "dept-bars"%string
  \/ id = "recent-triage-list"%string.
Proof. unfold dashboard_ids. rewrite !elem_of_cons, elem_of_nil. tauto. Qed.

(** X10.  However the summary call settles, the handlers complete
    normally, show no notice, make no call and leave every element other
    than the three counters, the department bars and the recent feed as it
    was: a refresh of the dashboard cannot disturb the form, the result
    panels or the submit button. *)
Theorem dashboard_refresh_confined net w :
  let '(c, w') := loadDashboardSummary_settled net w in
  c = Normal tt /\ alerts w' = alerts w /\ requests w' = requests w /\
  forall id, id ∉ dashboard_ids -> dom w' !! id = dom w !! id.
Proof.
  destruct (API.dashboardSummary net) as [data|err] eqn:Hnet.
  - rewrite (summary_received_run net data w Hnet), on_summary_data_run.
    cbv zeta.
    destruct (DashboardSummary.recent data) as [| |[|r rs]];
      (split; [reflexivity|]);
      rewrite ?alerts_update, ?requests_update;
      (split; [reflexivity|]); (split; [reflexivity|]);
      intros id Hid; rewrite elem_of_dashboard_ids in Hid;
      rewrite !lookup_update_ne; try reflexivity; intros <-; tauto.
  - rewrite (summary_failed_run net err w Hnet).
    rewrite alerts_update, requests_update.
    repeat split. intros id Hid. rewrite elem_of_dashboard_ids in Hid.
    apply lookup_update_ne. intros <-. tauto.
Qed.

Lemma update_comm id1 id2 f g w :
  id1 <> id2 ->
  update id1 f (update id2 g w) = update id2 g (update id1 f w).
Proof.
  intros Hne.
  apply world_eq; rewrite ?alerts_update, ?requests_update; try reflexivity.
  intros id'. rewrite !lookup_update.
  repeat (case_decide; subst; try congruence).
Qed.

Lemma update_idem id f w :
  (forall e, f (f e) = f e) -> update id f (update id f w) = update id f w.
Proof.
  intros Hf. apply world_eq; rewrite ?alerts_update, ?requests_update;
    try reflexivity.
  intros id'. rewrite !lookup_update.
  repeat (case_decide; subst; try congruence).
  destruct (dom w !! id'); simpl; [rewrite Hf|]; reflexivity.
Qed.

Lemma update_updates id f l w :
  id ∉ l.*1 -> update id f (updates l w) = updates l (update id f w).
Proof.
  induction l as [|[i g] l IH]; intros Hid; [reflexivity|].
  simpl in *. apply not_elem_of_cons in Hid as [Hi Hid].
  rewrite update_comm by congruence. rewrite IH by exact Hid. reflexivity.
Qed.

(** Updates of different elements by idempotent functions: applying the
    series twice is applying it once. *)
Lemma updates_idem l w :
  NoDup l.*1 -> Forall (fun '(_, f) => forall e, f (f e) = f e) l ->
  updates l (updates l w) = updates l w.
Proof.
  revert w. induction l as [|[i g] l IH]; intros w Hnd Hl; [reflexivity|].
  simpl in *. apply NoDup_cons in Hnd as [Hi Hnd].
  apply Forall_cons in Hl as [Hg Hl].
  rewrite <- update_updates by exact Hi.
  rewrite update_idem by exact Hg. rewrite IH by assumption. reflexivity.
Qed.

Ltac distinct_ids :=
  simpl; repeat (apply NoDup_cons; split;
                 [rewrite ?elem_of_cons, elem_of_nil; intros H;
                  repeat destruct H as [H|H]; discriminate || exact H|]);
  apply NoDup_nil_2.

(** X11.  Settling the summary call twice to the same outcome leaves the
    page as settling it once does: a refresh that brings nothing new changes
    nothing. *)
Theorem dashboard_refresh_idempotent net w :
  let w1 := (loadDashboardSummary_settled net w).2 in
  (loadDashboardSummary_settled net w1).2 = w1.
Proof.
  cbv zeta. destruct (API.dashboardSummary net) as [data|err] eqn:Hnet.
  - rewrite !(summary_received_run net data _ Hnet), !on_summary_data_run.
    cbv zeta. simpl snd.
    set (byRisk := obj_or _ _).
    set (f1 := with_textContent (Number.toString (num_or (RiskCounts.Low byRisk) 0))).
    set (f2 := with_textContent (Number.toString (num_or (RiskCounts.Medium byRisk) 0))).
    set (f3 := with_textContent (Number.toString (num_or (RiskCounts.High byRisk) 0))).
    set (f4 := with_innerHTML (dept_bars data)).
    destruct (DashboardSummary.recent data) as [| |[|r rs]].
    4: set (f5 := with_innerHTML (recent_feed (r :: rs)));
       pose proof (updates_idem
                     [("recent-triage-list", f5); ("dept-bars", f4);
                      ("stat-high", f3); ("stat-medium", f2);
                      ("stat-low", f1)]%string w
                     ltac:(distinct_ids) ltac:(repeat constructor)) as H.
    1-3: pose proof (updates_idem
                       [("dept-bars", f4); ("stat-high", f3);
                        ("stat-medium", f2); ("stat-low", f1)]%string w
                       ltac:(distinct_ids) ltac:(repeat constructor)) as H.
    all: cbn [updates foldr] in H; exact H.
  - rewrite !(summary_failed_run net err _ Hnet). simpl snd.
    apply update_idem. reflexivity.
Qed.

(** ** The triage call settles *)

Lemma elem_of_triage_ids id :
  id ∈ triage_ids <->
  id = "result-content"%string \/ id = "explain-content"%string
  \/ id = "result-panel"%string \/ id = "explain-panel"%string
  \/ id = "btn-submit"%string.
Proof. unfold triage_ids. rewrite !elem_of_cons, elem_of_nil. tauto. Qed.

Ltac present_in H :=
  rewrite ?is_Some_update; apply H;
  first [ apply elem_of_triage_ids; tauto | apply elem_of_form_ids; tauto ].

Lemma on_triage_data_run data w :
  has_all triage_ids w ->
  on_triage_data data w =
  (Normal tt,
   let w4 :=
     updates
       [("explain-panel",
         fun e => with_classList (classList e ∖ {["hidden"]}) e);
        ("result-panel",
         fun e => with_classList (classList e ∖ {["hidden"]}) e);
        ("explain-content",
         with_innerHTML
           (renderExplainability (TriageResult.contributing_factors data)));
        ("result-content", with_innerHTML (renderTriageResult data))]%string
       w in
   {| dom := dom w4; alerts := alerts w4;
      requests := requests w4 ++ [API.dashboardSummary_request] |}).
Proof.
  intros Hw.
  unfold on_triage_data, set_innerHTML, classList_remove,
    loadDashboardSummary.
  rewrite !bind_write_present by present_in Hw.
  reflexivity.
Qed.

Lemma restore_submit_run w :
  is_Some (dom w !! "btn-submit") ->
  restore_submit w =
  (Normal tt,
   update "btn-submit"
     (fun e => with_innerHTML idle_label (with_disabled false e)) w).
Proof.
  intros Hb. unfold restore_submit, set_disabled, set_innerHTML.
  rewrite bind_write_present by exact Hb.
  rewrite write_present by (rewrite is_Some_update; exact Hb).
  f_equal. apply world_eq; rewrite ?alerts_update, ?requests_update;
    try reflexivity.
  intros id. rewrite !lookup_update.
  repeat (case_decide; subst; try congruence).
  destruct (dom w !! "btn-submit"); reflexivity.
Qed.

(** X12.  When the triage call succeeds on a page that has the panels and
    the submit button: the result panel receives the rendered result and
    the explainability panel the rendered factors, both panels lose the
    class [hidden], no notice is shown and exactly one call follows, the
    request for the dashboard summary. *)
Theorem triage_success net data w :
  API.triage net = Normal data -> has_all triage_ids w ->
  let '(c, w') := on_triage_settled net w in
  c = Normal tt /\
  dom w' !! "result-content"
    = with_innerHTML (renderTriageResult data) <$> dom w !! "result-content" /\
  dom w' !! "explain-content"
    = with_innerHTML
        (renderExplainability (TriageResult.contributing_factors data))
        <$> dom w !! "explain-content" /\
  dom w' !! "result-panel"
    = (fun e => with_classList (classList e ∖ {["hidden"%string]}) e)
        <$> dom w !! "result-panel" /\
  dom w' !! "explain-panel"
    = (fun e => with_classList (classList e ∖ {["hidden"%string]}) e)
        <$> dom w !! "explain-panel" /\
  alerts w' = alerts w /\
  requests w' = requests w ++ [API.dashboardSummary_request].
Proof.
  intros Hdata Hw. unfold on_triage_settled, finally_, catch_.
  rewrite bind_run. unfold lift. rewrite Hdata.
  rewrite (on_triage_data_run data w Hw). cbv zeta.
  rewrite restore_submit_run
    by (cbn [dom updates foldr]; present_in Hw).
  split; [reflexivity|].
  cbn [updates foldr]. rewrite alerts_update, requests_update.
  cbn [dom alerts requests].
  rewrite !alerts_update, !requests_update.
  repeat split;
    repeat (rewrite lookup_update_eq
            || rewrite lookup_update_ne by discriminate);
    cbn [dom];
    repeat (rewrite lookup_update_eq
            || rewrite lookup_update_ne by discriminate);
    reflexivity.
Qed.

Lemma has_all_symptoms_page ids :
  forallb (fun id => bool_decide (is_Some (dom symptoms_page !! id))) ids
  = true ->
  has_all ids symptoms_page.
Proof.
  intros H id Hid. rewrite forallb_forall in H.
  apply list_elem_of_In in Hid. specialize (H id Hid).
  apply bool_decide_eq_true in H. exact H.
Qed.

Lemma triage_success_witness :
  let w' :=
    (on_triage_settled (Normal {| ok := true; json := Normal scenario1 |})
                       symptoms_page).2 in
  innerHTML <$> dom w' !! "result-content" =
  Some (lit "<div class='result-row'><span class='result-label'>Risk level</span><span class='result-value risk-high'>High</span></div><div class='result-row'><span class='result-label'>Confidence</span><span class='result-value'>87%</span></div><div class='result-row'><span class='result-label'>Recommended department</span></div><p class='result-dept' style='margin:0 0 0.75rem 0'>Cardiology</p>") /\
  innerHTML <$> dom w' !! "explain-content" =
  Some (lit "<p style='font-size:0.875rem;color:var(--color-text-muted)'>No factors returned.</p>") /\
  classList <$> dom w' !! "result-panel" = Some ∅ /\
  requests w' = [API.dashboardSummary_request].
Proof.
  pose proof (triage_success
                (Normal {| ok := true; json := Normal scenario1 |})
                scenario1 symptoms_page eq_refl
                (has_all_symptoms_page triage_ids
                   ltac:(vm_compute; reflexivity))) as H.
  cbv zeta. destruct (on_triage_settled _ symptoms_page) as [c w'].
  destruct H as (_ & H1 & H2 & H3 & _ & _ & H5). simpl snd.
  rewrite H1, H2, H3, H5. repeat split; vm_compute; reflexivity.
Defined.

(** X13.  When the triage call fails, the user is shown one notice, the
    message of the failure, or "Triage request failed." when that is empty;
    no call follows, and no element other than the submit button changes:
    the panels keep the result of the previous submission. *)
Theorem triage_failure net err w :
  API.triage net = Throw err -> is_Some (dom w !! "btn-submit") ->
  let '(c, w') := on_triage_settled net w in
  c = Normal tt /\
  alerts w' = alerts w ++ [match message err with
                           | [] => lit "Triage request failed."
                           | m => m
                           end] /\
  requests w' = requests w /\
  forall id, id <> "btn-submit"%string -> dom w' !! id = dom w !! id.
Proof.
  intros Hnet Hb. unfold on_triage_settled, finally_, catch_.
  rewrite bind_run. unfold lift. rewrite Hnet.
  unfold on_triage_failed, alert.
  rewrite restore_submit_run by exact Hb.
  rewrite alerts_update, requests_update. cbn [alerts requests].
  split; [reflexivity|]. split.
  { destruct (message err); reflexivity. }
  split; [reflexivity|].
  intros id Hid. rewrite lookup_update_ne by congruence. reflexivity.
Qed.

Lemma triage_failure_witness :
  alerts (on_triage_settled
            (Normal {| ok := false; json := Normal scenario3_body |})
            symptoms_page).2
  = [lit "model unavailable"].
Proof.
  pose proof (triage_failure
                (Normal {| ok := false; json := Normal scenario3_body |})
                (Error (lit "model unavailable")) symptoms_page eq_refl
                ltac:(vm_compute; eauto)) as H.
  destruct (on_triage_settled _ symptoms_page) as [c w'].
  destruct H as (_ & H & _). simpl snd. rewrite H. reflexivity.
Defined.

(** X14.  However the triage call settles, and whichever elements the page
    has, the handlers of the settlement leave every element other than the
    two panels, their contents and the submit button as it was; in
    particular what the user typed in the form stays. *)
Theorem triage_settlement_confined net w id :
  id ∉ triage_ids ->
  dom (on_triage_settled net w).2 !! id = dom w !! id.
Proof.
  intros Hid. rewrite elem_of_triage_ids in Hid.
  assert (H : untouched id (on_triage_settled net)).
  { unfold on_triage_settled, on_triage_data, on_triage_failed,
      restore_submit, loadDashboardSummary, set_innerHTML, set_disabled,
      classList_remove.
    assert (id <> "result-content"%string) by tauto.
    assert (id <> "explain-content"%string) by tauto.
    assert (id <> "result-panel"%string) by tauto.
    assert (id <> "explain-panel"%string) by tauto.
    assert (id <> "btn-submit"%string) by tauto.
    frame. }
  apply H.
Qed.

Lemma triage_settlement_confined_witness :
  dom (on_triage_settled (Normal {| ok := true; json := Normal scenario1 |})
                         symptoms_page).2 !! "symptoms"
  = dom symptoms_page !! "symptoms".
Proof.
  apply (triage_settlement_confined
           (Normal {| ok := true; json := Normal scenario1 |})
           symptoms_page "symptoms").
  rewrite elem_of_triage_ids.
  intros [H|[H|[H|[H|H]]]]; discriminate H.
Defined.

(** ** Document upload *)

Lemma has_all_upload_form w : has_all upload_ids w -> has_form w.
Proof.
  intros H id Hid. apply H. unfold upload_ids. apply elem_of_cons. tauto.
Qed.

Lemma has_all_upload_status w :
  has_all upload_ids w -> is_Some (dom w !! "upload-status").
Proof. intros H. apply H. unfold upload_ids. apply elem_of_cons. tauto. Qed.

Lemma has_form_update id f w : has_form w -> has_form (update id f w).
Proof. intros H id' Hid'. rewrite is_Some_update. apply H, Hid'. Qed.

Lemma fillFormFromPatient_field_run (patient : field Patient.t) w :
  has_form w ->
  fillFormFromPatient patient w =
  (Normal tt, match patient with present p => filled p w | _ => w end).
Proof.
  intros Hw. destruct patient as [| |p]; try reflexivity.
  apply fillFormFromPatient_run, Hw.
Qed.

(** X15.  When the upload succeeds on a page that has the form and the
    status line, the status reads "Loaded." and the form is filled from the
    patient object of the answer; an answer without patient object changes
    the status only. *)
Theorem upload_success net res w :
  API.uploadDocument net = Normal res -> has_all upload_ids w ->
  on_upload_settled net w =
  (Normal tt,
   let w1 := update "upload-status" (with_textContent (lit "Loaded.")) w in
   match UploadResult.patient res with
   | present p => filled p w1
   | _ => w1
   end).
Proof.
  intros Hnet Hw. unfold on_upload_settled, catch_.
  rewrite bind_run. unfold lift. rewrite Hnet.
  unfold set_textContent.
  rewrite bind_write_present by (apply has_all_upload_status, Hw).
  rewrite fillFormFromPatient_field_run
    by (apply has_form_update, has_all_upload_form, Hw).
  reflexivity.
Qed.

(** X16.  When the upload fails, the status line shows the message of the
    failure, or "Upload failed" when that is empty, and nothing else on the
    page changes. *)
Theorem upload_failure net err w :
  API.uploadDocument net = Throw err ->
  is_Some (dom w !! "upload-status") ->
  on_upload_settled net w =
  (Normal tt,
   update "upload-status"
     (with_textContent match message err with
                       | [] => lit "Upload failed"
                       | m => m
                       end) w).
Proof.
  intros Hnet Hs. unfold on_upload_settled, catch_.
  rewrite bind_run. unfold lift. rewrite Hnet.
  unfold set_textContent. rewrite write_present by exact Hs.
  destruct (message err); reflexivity.
Qed.

(** X17.  A change of the file input with a file chosen, on a page that has
    the upload button and the status line, sets the status to "Uploading…"
    and issues exactly one call: the upload of the first chosen file in the
    form field [document]; nothing else changes. *)
Theorem upload_change_sends_first_file w btn input f fs :
  dom w !! "btn-upload" = Some btn -> dom w !! "doc-upload" = Some input ->
  files input = f :: fs -> is_Some (dom w !! "upload-status") ->
  on_upload_change w =
  (Normal tt,
   let w1 := update "upload-status"
               (with_textContent (lit "Uploading" ++ [ellipsis])) w in
   {| dom := dom w1; alerts := alerts w;
      requests := requests w ++
        [ {| url := lit "/api/upload-document"; method := lit "POST";
             headers := []; body := FormData (lit "document") f |} ] |}).
Proof.
  intros Hb Hi Hf Hs. unfold on_upload_change. rewrite Hb, Hi, Hf.
  unfold set_textContent. rewrite bind_write_present by exact Hs.
  unfold fetch. rewrite alerts_update, requests_update. reflexivity.
Qed.

Lemma has_all_compute ids w :
  forallb (fun id => bool_decide (is_Some (dom w !! id))) ids = true ->
  has_all ids w.
Proof.
  intros H id Hid. rewrite forallb_forall in H.
  apply list_elem_of_In in Hid. specialize (H id Hid).
  apply bool_decide_eq_true in H. exact H.
Qed.

Lemma upload_success_witness :
  let w' :=
    (on_upload_settled (Normal {| ok := true; json := Normal upload_answer |})
                       symptoms_page).2 in
  innerHTML <$> dom w' !! "upload-status" = Some (lit "Loaded.") /\
  value_of w' "age" = Some (lit "52") /\
  value_of w' "blood_pressure" = Some (lit "130/85") /\
  value_of w' "symptoms" = Some (lit "  chest pain ").
Proof.
  cbv zeta.
  rewrite (upload_success
             (Normal {| ok := true; json := Normal upload_answer |})
             upload_answer symptoms_page eq_refl
             (has_all_compute upload_ids symptoms_page
                ltac:(vm_compute; reflexivity))).
  vm_compute. repeat split.
Defined.

Lemma upload_failure_witness :
  innerHTML <$>
    dom (on_upload_settled (Throw failed_to_fetch) symptoms_page).2
      !! "upload-status"
  = Some (lit "Failed to fetch").
Proof.
  rewrite (upload_failure (Throw failed_to_fetch) failed_to_fetch
             symptoms_page eq_refl ltac:(vm_compute; eauto)).
  vm_compute. reflexivity.
Defined.

Lemma upload_change_sends_first_file_witness :
  requests (on_upload_change symptoms_page).2
  = [API.uploadDocument_request {| file_name := lit "record.pdf" |}].
Proof.
  rewrite (upload_change_sends_first_file symptoms_page createElement
             {| value := []; innerHTML := []; disabled := false;
                classList := ∅;
                files := [ {| file_name := lit "record.pdf" |} ] |}
             {| file_name := lit "record.pdf" |} []
             ltac:(vm_compute; reflexivity) ltac:(vm_compute; reflexivity)
             eq_refl ltac:(vm_compute; eauto)).
  reflexivity.
Defined.

(** ** Image analysis *)

Lemma update_update id f g w :
  update id f (update id g w) = update id (fun e => f (g e)) w.
Proof.
  apply world_eq; rewrite ?alerts_update, ?requests_update; try reflexivity.
  intros id'. rewrite !lookup_update.
  repeat (case_decide; subst; try congruence).
  destruct (dom w !! id'); reflexivity.
Qed.

Lemma hide_extraction_error_run w :
  hide_extraction_error w =
  (Normal tt,
   update "image-extraction-error"
     (fun e => with_textContent []
                 (with_classList (classList e ∪ {["hidden"%string]}) e)) w).
Proof.
  unfold hide_extraction_error, when_present, classList_add, set_textContent.
  destruct (dom w !! "image-extraction-error") as [e|] eqn:He.
  - rewrite bind_write_present by (rewrite He; eauto).
    rewrite write_present by (rewrite is_Some_update, He; eauto).
    rewrite update_update. reflexivity.
  - rewrite update_missing by exact He. reflexivity.
Qed.

(** X18.  When the analysis of an image succeeds on a page that has the
    form and the status line: the status reads "Done. Form filled from
    extraction.", the form is filled from the patient object, the text area
    (if any) shows the extracted text, which is [raw_extraction] when that
    is a non-empty string, else [raw] when that is one, else "No text
    extracted.", and the error panel (if any) is hidden and emptied. *)
Theorem image_success net res w :
  API.analyzeDocumentImage net = Normal res -> has_all upload_ids w ->
  on_image_settled net w =
  (Normal tt,
   let w1 := update "upload-status"
               (with_textContent (lit "Done. Form filled from extraction."))
               w in
   let w2 := match UploadResult.patient res with
             | present p => filled p w1
             | _ => w1
             end in
   let raw :=
     match UploadResult.patient res with
     | present p =>
         match Patient.raw_extraction p, Patient.raw p with
         | present (c :: s), _ => c :: s
         | _, present (c :: s) => c :: s
         | _, _ => lit "No text extracted."
         end
     | _ => lit "No text extracted."
     end in
   updates
     [("image-extraction-error",
       fun e => with_textContent []
                  (with_classList (classList e ∪ {["hidden"]}) e));
      ("image-extraction-text", with_textContent raw)]%string w2).
Proof.
  intros Hnet Hw. unfold on_image_settled, catch_.
  rewrite bind_run. unfold lift. rewrite Hnet.
  unfold on_image_data, set_textContent.
  rewrite bind_write_present by (apply has_all_upload_status, Hw).
  rewrite bind_run, fillFormFromPatient_field_run
    by (apply has_form_update, has_all_upload_form, Hw).
  rewrite bind_when_present_write, hide_extraction_error_run.
  cbv zeta. cbn [updates foldr]. do 3 f_equal.
  unfold extracted_text.
  destruct (UploadResult.patient res) as [| |p]; try reflexivity.
  destruct (Patient.raw_extraction p) as [| |[|c s]],
           (Patient.raw p) as [| |[|c' s']]; reflexivity.
Qed.

Lemma image_success_witness :
  let w' :=
    (on_image_settled (Normal {| ok := true; json := Normal image_answer |})
                      symptoms_page).2 in
  innerHTML <$> dom w' !! "image-extraction-text"
    = Some (lit "BP &lt;130/85&gt;") /\
  value_of w' "symptoms" = Some (lit "cough & fever") /\
  classList <$> dom w' !! "image-extraction-error" = Some {[ "hidden"%string ]}.
Proof.
  cbv zeta.
  rewrite (image_success
             (Normal {| ok := true; json := Normal image_answer |})
             image_answer symptoms_page eq_refl
             (has_all_compute upload_ids symptoms_page
                ltac:(vm_compute; reflexivity))).
  vm_compute. repeat split.
Defined.

(** X19.  When the analysis of an image fails, on a page that has the
    status line: the status reads "Analysis failed.", the text area (if
    any) is emptied, the error panel (if any) shows the message of the
    failure, or "Analysis failed. Check your image and try again." when
    that is empty, and loses the class [hidden]; nothing else changes, so
    what an earlier upload filled into the form stays. *)
Theorem image_failure net err w :
  API.analyzeDocumentImage net = Throw err ->
  is_Some (dom w !! "upload-status") ->
  on_image_settled net w =
  (Normal tt,
   updates
     [("image-extraction-error",
       fun e =>
         let e' :=
           with_textContent
             match message err with
             | [] => lit "Analysis failed. Check your image and try again."
             | m => m
             end e in
         with_classList (classList e' ∖ {["hidden"]}) e');
      ("image-extraction-text", with_textContent []);
      ("upload-status", with_textContent (lit "Analysis failed."))]%string
     w).
Proof.
  intros Hnet Hs. unfold on_image_settled, catch_.
  rewrite bind_run. unfold lift. rewrite Hnet.
  unfold on_image_failed, set_textContent, classList_remove.
  rewrite bind_write_present by exact Hs.
  rewrite bind_when_present_write.
  cbn [updates foldr].
  set (w2 := update "image-extraction-text" _ _).
  unfold when_present.
  destruct (dom w2 !! "image-extraction-error") as [e|] eqn:He.
  - rewrite bind_write_present by (rewrite He; eauto).
    rewrite write_present by (rewrite is_Some_update, He; eauto).
    rewrite update_update. destruct (message err); reflexivity.
  - rewrite update_missing by exact He. reflexivity.
Qed.

Lemma image_failure_witness :
  let w' := (on_image_settled (Throw failed_to_fetch) symptoms_page).2 in
  innerHTML <$> dom w' !! "image-extraction-error"
    = Some (lit "Failed to fetch") /\
  classList <$> dom w' !! "image-extraction-error" = Some ∅ /\
  value_of w' "symptoms" = value_of symptoms_page "symptoms".
Proof.
  cbv zeta.
  rewrite (image_failure (Throw failed_to_fetch) failed_to_fetch
             symptoms_page eq_refl ltac:(vm_compute; eauto)).
  vm_compute. repeat split.
Defined.

(** ** Trimming and splitting *)

Lemma trim_start_head s c :
  head (trim_start s) = Some c -> is_space c = false.
Proof.
  induction s as [|x s IH]; simpl; [discriminate|].
  destruct (is_space x) eqn:Hx; [exact IH|].
  simpl. intros [= <-]. exact Hx.
Qed.

Lemma trim_start_suffix s : exists pre, s = pre ++ trim_start s.
Proof.
  induction s as [|x s [pre IH]]; simpl; [exists []; reflexivity|].
  destruct (is_space x).
  - exists (x :: pre). simpl. f_equal. exact IH.
  - exists []. reflexivity.
Qed.

Lemma last_rev_head (l : jsstring) : last (rev l) = head l.
Proof. destruct l as [|x l]; [reflexivity|]. simpl. apply last_snoc. Qed.

Lemma head_rev_last (l : jsstring) : head (rev l) = last l.
Proof. rewrite <- (rev_involutive l) at 2. symmetry. apply last_rev_head. Qed.

Lemma last_app_some (pre u : jsstring) c :
  last u = Some c -> last (pre ++ u) = Some c.
Proof.
  intros Hu. induction pre as [|x pre IH]; [exact Hu|].
  simpl. destruct (pre ++ u) eqn:E; [discriminate IH | exact IH].
Qed.

Lemma trim_trimmed s : trimmed (trim s).
Proof.
  unfold trimmed, trim. split; intros c Hc.
  - rewrite head_rev_last in Hc.
    destruct (trim_start_suffix (rev (trim_start s))) as [pre Hpre].
    apply (last_app_some pre) in Hc. rewrite <- Hpre, last_rev_head in Hc.
    apply (trim_start_head s), Hc.
  - rewrite last_rev_head in Hc. apply (trim_start_head _ _ Hc).
Qed.

Lemma trim_start_Forall (P : N -> Prop) s :
  Forall P s -> Forall P (trim_start s).
Proof.
  intros H. destruct (trim_start_suffix s) as [pre Hpre].
  rewrite Hpre in H. apply Forall_app in H. tauto.
Qed.

Lemma trim_Forall (P : N -> Prop) s : Forall P s -> Forall P (trim s).
Proof.
  intros H. unfold trim.
  apply List.Forall_rev, trim_start_Forall, List.Forall_rev,
    trim_start_Forall, H.
Qed.

Lemma split_on_no_separator sep s : forall cur,
  Forall (fun c => sep c = false) cur ->
  Forall (Forall (fun c => sep c = false)) (split_on sep cur s).
Proof.
  induction s as [|x s IH]; intros cur Hcur; simpl.
  - constructor; [apply List.Forall_rev, Hcur | constructor].
  - destruct (sep x) eqn:Hx.
    + constructor; [apply List.Forall_rev, Hcur | apply IH; constructor].
    + apply IH. constructor; assumption.
Qed.

Lemma conditions_of_clean conditions :
  Forall (fun c => c <> [] /\ trimmed c /\
                   Forall (fun u => is_comma_or_semicolon u = false) c)
         (conditions_of conditions).
Proof.
  unfold conditions_of. destruct (nonempty conditions); [|constructor].
  apply Forall_forall. intros c Hc.
  apply list_elem_of_filter in Hc as [Hne Hc].
  apply list_elem_of_fmap in Hc as (piece & -> & Hpiece).
  split; [intros E; rewrite E in Hne; discriminate Hne|].
  split; [apply trim_trimmed|].
  apply trim_Forall.
  pose proof (split_on_no_separator is_comma_or_semicolon conditions []
                ltac:(constructor)) as H.
  rewrite Forall_forall in H. apply H, Hpiece.
Qed.

(** ** The body of the triage request *)

Section Payload.

Variable parseInt10 : jsstring -> float.
Variable parseFloat : jsstring -> float.

Lemma on_submit_request w s btn :
  has_form w -> value_of w "symptoms" = Some s ->
  nonempty (trim s) = true -> dom w !! "btn-submit" = Some btn ->
  exists age gender bp hr temp cond,
    value_of w "age" = Some age /\ value_of w "gender" = Some gender /\
    value_of w "blood_pressure" = Some bp /\
    value_of w "heart_rate" = Some hr /\
    value_of w "temperature" = Some temp /\
    value_of w "pre_existing_conditions" = Some cond /\
    requests (on_submit parseInt10 parseFloat w).2 =
    requests w ++
    [API.triage_request
       (payload_of parseInt10 parseFloat age gender (trim s) (trim bp) hr
                   temp (conditions_of cond))].
Proof.
  intros Hw Hs Hne Hb.
  destruct (has_form_value w "age" Hw ltac:(form_id)) as [e1 H1].
  destruct (has_form_value w "gender" Hw ltac:(form_id)) as [e2 H2].
  destruct (has_form_value w "symptoms" Hw ltac:(form_id)) as [e3 H3].
  destruct (has_form_value w "blood_pressure" Hw ltac:(form_id)) as [e4 H4].
  destruct (has_form_value w "heart_rate" Hw ltac:(form_id)) as [e5 H5].
  destruct (has_form_value w "temperature" Hw ltac:(form_id)) as [e6 H6].
  destruct (has_form_value w "pre_existing_conditions" Hw ltac:(form_id))
    as [e7 H7].
  unfold value_of in *. rewrite H3 in Hs. injection Hs as <-.
  exists (value e1), (value e2), (value e4), (value e5), (value e6),
    (value e7).
  rewrite H1, H2, H4, H5, H6, H7. repeat (split; [reflexivity|]).
  unfold on_submit.
  rewrite bind_run, (read_present _ _ _ _ H1).
  rewrite bind_run, (read_present _ _ _ _ H2).
  rewrite bind_run, (read_present _ _ _ _ H3).
  rewrite bind_run, (read_present _ _ _ _ H4).
  rewrite bind_run, (read_present _ _ _ _ H5).
  rewrite bind_run, (read_present _ _ _ _ H6).
  rewrite bind_run, (read_present _ _ _ _ H7).
  cbv zeta. rewrite Hne. unfold negb. cbv iota.
  fold (conditions_of (value e7)).
  rewrite (submitting_run w _ btn Hb). reflexivity.
Qed.

(** X20.  The conditions sent with a triage request are the pieces of the
    conditions field between commas and semicolons, trimmed, without the
    empty ones: every condition sent is non-empty, neither begins nor ends
    with white space and contains no comma and no semicolon. *)
Theorem submitted_conditions_clean w s btn :
  has_form w -> value_of w "symptoms" = Some s ->
  nonempty (trim s) = true -> dom w !! "btn-submit" = Some btn ->
  exists payload,
    requests (on_submit parseInt10 parseFloat w).2
    = requests w ++ [API.triage_request payload] /\
    Forall (fun c => c <> [] /\ trimmed c /\
                     Forall (fun u => is_comma_or_semicolon u = false) c)
           (Payload.pre_existing_conditions payload).
Proof.
  intros Hw Hs Hne Hb.
  destruct (on_submit_request w s btn Hw Hs Hne Hb)
    as (age & gender & bp & hr & temp & cond & _ & _ & _ & _ & _ & _ & Hr).
  eexists. split; [exact Hr|]. apply conditions_of_clean.
Qed.

(** X21.  What the form leaves empty is sent as follows, whatever the
    number parser of the host: an empty age as 35, an empty gender as
    "Unknown", and a blank blood pressure, an empty heart rate and an empty
    temperature not at all; the symptoms are sent trimmed. *)
Theorem submitted_defaults w s btn :
  has_form w -> value_of w "symptoms" = Some s ->
  nonempty (trim s) = true -> dom w !! "btn-submit" = Some btn ->
  exists payload,
    requests (on_submit parseInt10 parseFloat w).2
    = requests w ++ [API.triage_request payload] /\
    Payload.symptoms payload = trim s /\
    (value_of w "age" = Some [] -> Payload.age payload = 35%float) /\
    (value_of w "gender" = Some [] ->
     Payload.gender payload = lit "Unknown") /\
    (forall bp, value_of w "blood_pressure" = Some bp -> trim bp = [] ->
                Payload.blood_pressure payload = absent) /\
    (value_of w "heart_rate" = Some [] ->
     Payload.heart_rate payload = absent) /\
    (value_of w "temperature" = Some [] ->
     Payload.temperature payload = absent) /\
    (value_of w "pre_existing_conditions" = Some [] ->
     Payload.pre_existing_conditions payload = []).
Proof.
  intros Hw Hs Hne Hb.
  destruct (on_submit_request w s btn Hw Hs Hne Hb)
    as (age & gender & bp & hr & temp & cond
        & Ha & Hg & Hbp & Hhr & Ht & Hc & Hr).
  eexists. split; [exact Hr|]. simpl.
  split; [reflexivity|].
  split; [rewrite Ha; intros [= ->]; reflexivity|].
  split; [rewrite Hg; intros [= ->]; reflexivity|].
  split; [rewrite Hbp; intros bp' [= ->] ->; reflexivity|].
  split; [rewrite Hhr; intros [= ->]; reflexivity|].
  split; [rewrite Ht; intros [= ->]; reflexivity|].
  rewrite Hc; intros [= ->]; reflexivity.
Qed.

End Payload.

Lemma has_form_bare : has_form bare_form.
Proof.
  intros id Hid. apply elem_of_form_ids in Hid.
  destruct Hid as [->|[->|[->|[->|[->|[->| ->]]]]]];
    vm_compute; eauto.
Qed.

Lemma trim_headache : nonempty (trim (lit "headache")) = true.
Proof. vm_compute. reflexivity. Qed.

Lemma submitted_conditions_clean_witness :
  exists payload,
    requests (on_submit parse_nan parse_nan bare_form).2
    = requests bare_form ++ [API.triage_request payload] /\
    Forall (fun c => c <> [] /\ trimmed c /\
                     Forall (fun u => is_comma_or_semicolon u = false) c)
           (Payload.pre_existing_conditions payload).
Proof.
  apply (submitted_conditions_clean parse_nan parse_nan bare_form
           (lit "headache") (with_innerHTML idle_label createElement)
           has_form_bare).
  - vm_compute. reflexivity.
  - exact trim_headache.
  - vm_compute. reflexivity.
Defined.

Example conditions_sample :
  conditions_of (lit " asthma ;; type 2 diabetes, ,")
  = [lit "asthma"; lit "type 2 diabetes"].
Proof. vm_compute. reflexivity. Qed.

Lemma submitted_defaults_witness :
  exists payload,
    requests (on_submit parse_nan parse_nan bare_form).2
    = [API.triage_request payload] /\
    Payload.age payload = 35%float /\
    Payload.gender payload = lit "Unknown" /\
    Payload.blood_pressure payload = absent.
Proof.
  destruct (submitted_defaults parse_nan parse_nan bare_form
              (lit "headache") (with_innerHTML idle_label createElement)
              has_form_bare)
    as (payload & Hr & _ & Ha & Hg & Hbp & _).
  - vm_compute. reflexivity.
  - exact trim_headache.
  - vm_compute. reflexivity.
  - exists payload. split; [exact Hr|].
    split; [apply Ha; vm_compute; reflexivity|].
    split; [apply Hg; vm_compute; reflexivity|].
    apply (Hbp (lit "  ")); vm_compute; reflexivity.
Defined.

(** ** Filling twice *)

Lemma update_same w id : update id (fun e => e) w = w.
Proof.
  apply world_eq; rewrite ?alerts_update, ?requests_update; try reflexivity.
  intros id'. rewrite lookup_update. case_decide; [subst|reflexivity].
  destruct (dom w !! id'); reflexivity.
Qed.

Lemma update_if_update id v w : update_if id v w = update id (set_text v) w.
Proof. destruct v; [reflexivity|]. symmetry. apply update_same. Qed.

Lemma set_text_idem v e : set_text v (set_text v e) = set_text v e.
Proof. destruct v; reflexivity. Qed.

Lemma filled_updates p w :
  filled p w =
  updates
    [("pre_existing_conditions", set_text (conditions_text p));
     ("temperature", set_text (number_text (Patient.temperature p)));
     ("heart_rate", set_text (number_text (Patient.heart_rate p)));
     ("blood_pressure", set_text (blood_pressure_text p));
     ("symptoms", set_text (string_text (Patient.symptoms p)));
     ("gender", set_text (string_text (Patient.gender p)));
     ("age", set_text (number_text (Patient.age p)))]%string w.
Proof. unfold filled. rewrite !update_if_update. reflexivity. Qed.

(** X22.  Filling the form twice from the same patient object leaves it as
    filling it once does: when the upload and the image analysis answer
    with the same patient, the order of their arrival does not matter. *)
Theorem fill_form_idempotent patient w :
  has_form w ->
  let w1 := (fillFormFromPatient patient w).2 in
  fillFormFromPatient patient w1 = (Normal tt, w1).
Proof.
  intros Hw. cbv zeta.
  rewrite (fillFormFromPatient_field_run patient w Hw). simpl snd.
  destruct patient as [| |p]; try reflexivity.
  assert (Hw1 : has_form (filled p w)).
  { unfold filled. repeat apply has_form_update_if. exact Hw. }
  rewrite (fillFormFromPatient_run p _ Hw1). f_equal.
  rewrite !filled_updates. apply updates_idem.
  - distinct_ids.
  - repeat constructor; intros e; apply set_text_idem.
Qed.

Lemma fill_form_idempotent_witness :
  let w1 := (fillFormFromPatient (present scenario4) begun_form).2 in
  fillFormFromPatient (present scenario4) w1 = (Normal tt, w1).
Proof.
  apply (fill_form_idempotent (present scenario4) begun_form has_form_begun).
Defined.

(** ** An image is chosen *)

(** X23.  A change of the image input with a file chosen, on a page that
    has the image button and the status line: when the page has the output
    panel, that panel loses the class [hidden] and the error panel (if any)
    is hidden and emptied, and when it has no output panel the error panel
    is left alone; the status reads "Analyzing image with AI…"; exactly one
    call follows, the analysis of the first chosen file in the form field
    [image]. *)
Theorem image_change_sends_first_file w btn input f fs :
  dom w !! "btn-ehr-image" = Some btn ->
  dom w !! "ehr-image-upload" = Some input ->
  files input = f :: fs -> is_Some (dom w !! "upload-status") ->
  on_image_change w =
  (Normal tt,
   let w1 :=
     match dom w !! "image-extraction-output" with
     | Some _ =>
         updates
           [("image-extraction-error",
             fun e => with_textContent []
                        (with_classList (classList e ∪ {["hidden"]}) e));
            ("image-extraction-output",
             fun e => with_classList (classList e ∖ {["hidden"]}) e)]%string
           w
     | None => w
     end in
   let w2 := update "upload-status"
               (with_textContent (lit "Analyzing image with AI" ++ [ellipsis]))
               w1 in
   {| dom := dom w2; alerts := alerts w;
      requests := requests w ++
        [ {| url := lit "/api/analyze-document-image"; method := lit "POST";
             headers := []; body := FormData (lit "image") f |} ] |}).
Proof.
  intros Hb Hi Hf Hs. unfold on_image_change. rewrite Hb, Hi, Hf.
  rewrite bind_run. unfold when_present at 1.
  destruct (dom w !! "image-extraction-output") as [out|] eqn:Ho.
  - unfold classList_remove.
    rewrite bind_write_present by (rewrite Ho; eauto).
    rewrite hide_extraction_error_run.
    unfold set_textContent.
    rewrite bind_write_present
      by (rewrite !is_Some_update; exact Hs).
    unfold fetch. cbv zeta. cbn [updates foldr].
    rewrite !alerts_update, !requests_update. reflexivity.
  - unfold set_textContent. rewrite bind_write_present by exact Hs.
    unfold fetch. rewrite alerts_update, requests_update. reflexivity.
Qed.

Lemma image_change_sends_first_file_witness :
  let w' := (on_image_change symptoms_page).2 in
  requests w'
  = [API.analyzeDocumentImage_request {| file_name := lit "scan.png" |}] /\
  classList <$> dom w' !! "image-extraction-output" = Some ∅ /\
  innerHTML <$> dom w' !! "upload-status"
  = Some (lit "Analyzing image with AI" ++ [ellipsis]).
Proof.
  cbv zeta.
  rewrite (image_change_sends_first_file symptoms_page createElement
             {| value := []; innerHTML := []; disabled := false;
                classList := ∅;
                files := [ {| file_name := lit "scan.png" |} ] |}
             {| file_name := lit "scan.png" |} []
             ltac:(vm_compute; reflexivity) ltac:(vm_compute; reflexivity)
             eq_refl ltac:(vm_compute; eauto)).
  vm_compute. repeat split.
Defined.

(** ** What [escapeHtml] returns *)

(** X24.  Whatever the text, what [escapeHtml] returns has no angle bracket,
    and each of its ampersands opens one of the references [&amp;], [&lt;],
    [&gt;] and [&nbsp;]; for [null] and for a missing value it returns the
    empty string. *)
Theorem escapeHtml_markup_free v :
  references_only (escapeHtml v) /\ brackets (escapeHtml v) = 0%nat /\
  escapeHtml null = [] /\ escapeHtml absent = [].
Proof.
  split; [|split; [apply brackets_escapeHtml | split; reflexivity]].
  destruct v as [| |s]; simpl; try exact I.
  apply escape_text_references_only.
Qed.
